(** * NAT gateway resource and cloud-volume requests: a shallow embedding

    The development follows two source files of the provider:

    - the NAT gateway resource ([resourceVpcNatGatewayV2*],
      [waitForNatGatewayActive], [waitForNatGatewayDelete],
      [resourceNatGatewayV2ValidateSpec]);
    - the cloud-volume request functions of the SDK
      ([cloudvolumes.Create], [ExtendSize], [Update], [Delete], [Get]).

    Go functions that talk to the remote service are embedded as state
    transformers over an explicit world; Go's [(value, error)] results are
    sums or pairs with an optional error. *)

From Stdlib Require Import ZArith String List Bool Lia.
From stdpp Require Import gmap strings list.

Open Scope Z_scope.
Open Scope string_scope.

(** ** Errors *)

(** Go's [error] values, as far as the code tells them apart.  The code
    distinguishes [golangsdk.ErrDefault404] by a type assertion; every other
    error is opaque to it.  [Errorf] keeps the format and its string
    arguments, [Wrapf] the format and the error it was given ([%s] of an
    error); the rendering is not modelled. *)
Inductive error : Type :=
| ErrDefault404 (url : string)
| ErrUnexpectedResponseCode (code : Z)
| ErrTransport (msg : string)
| ErrBuilder (msg : string)
| TimeoutError (lastState : string) (timeout : Z)
| UnexpectedStateError (state : string) (expected : list string)
| Errorf (format : string) (args : list string)
| Wrapf (format : string) (cause : error).

(** [_, ok := err.(golangsdk.ErrDefault404)] *)
Definition isErrDefault404 (err : error) : bool :=
  match err with
  | ErrDefault404 _ => true
  | _ => false
  end.

(** ** A small state monad for code that talks to the remote side *)

Definition M (W A : Type) : Type := W -> A * W.

Definition ret {W A} (a : A) : M W A := fun w => (a, w).

Definition bind {W A B} (m : M W A) (k : A -> M W B) : M W B :=
  fun w => let '(a, w') := m w in k a w'.

Notation "'do' x <- m ; k" := (bind m (fun x => k))
  (at level 10, x name, m at level 100, k at level 200).

(** ** Durations, as Go's [time.Duration] (nanoseconds) *)

Definition Duration := Z.
Definition Millisecond : Duration := 1000000.
Definition Second : Duration := 1000 * Millisecond.
Definition Minute : Duration := 60 * Second.

(** ** The spec validator of the NAT gateway resource *)

Definition Specs : list string := ["1"; "2"; "3"; "4"].

(** [fmt.Errorf("%q must be one of %v", k, Specs)] *)
Definition specs_error (k : string) : error :=
  Errorf "%q must be one of %v" (k :: Specs).

(** [for i := range Specs { if value == Specs[i] { return } }], then the
    append to [errors].  The named results [ws] and [errors] start nil. *)
Fixpoint validate_loop (value : string) (specs : list string) : bool :=
  match specs with
  | [] => false
  | s :: rest => if String.eqb value s then true else validate_loop value rest
  end.

Definition resourceNatGatewayV2ValidateSpec (v k : string)
  : list string * list error :=
  let ws : list string := [] in
  let errors : list error := [] in
  if validate_loop v Specs then (ws, errors)
  else (ws, (errors ++ [specs_error k])%list).

(** ** Request and response bodies *)

(** [map[string]interface{}] and decoded JSON, as far as the code builds and
    passes them on. *)
#[warnings="-register-all"]
Inductive JSON : Type :=
| JNull
| JString (s : string)
| JNumber (n : Z)
| JBool (b : bool)
| JObject (fields : list (string * JSON)).

(** ** Go's [strings] package *)

(** [strings.HasPrefix(s, p)] *)
Fixpoint hasPrefix (p s : string) : bool :=
  match p, s with
  | EmptyString, _ => true
  | String a p', String b s' => if Ascii.eqb a b then hasPrefix p' s' else false
  | String _ _, EmptyString => false
  end.

(** [s[n:]], the whole of [s] gone when it is shorter than [n]. *)
Fixpoint dropPrefix (n : nat) (s : string) : string :=
  match n, s with
  | O, _ => s
  | S n', String _ s' => dropPrefix n' s'
  | S _, EmptyString => EmptyString
  end.

(** [strings.Replace(s, old, new, 1)]: the leftmost occurrence of [old] is
    replaced, the rest of [s] is kept. *)
Fixpoint strings_Replace1 (s old new : string) : string :=
  if hasPrefix old s then new ++ dropPrefix (String.length old) s
  else match s with
       | EmptyString => EmptyString
       | String c s' => String c (strings_Replace1 s' old new)
       end.

(** [strings.Index(s, old)], [None] for Go's -1. *)
Fixpoint strings_Index (s old : string) : option nat :=
  if hasPrefix old s then Some O
  else match s with
       | EmptyString => None
       | String _ s' => option_map S (strings_Index s' old)
       end.

(** ** The SDK's service client *)

Module golangsdk.

(** [golangsdk.ServiceClient]: the struct's declaration is not among the
    sources at hand; it is taken with the fields the SDK gives it, of which
    the code here writes [ResourceBase] only.  [ProviderClient] is a
    pointer, kept as a handle. *)
Record ServiceClient : Type := {
  ProviderClient : nat;
  Endpoint : string;
  ResourceBase : string;
  Type_ : string
}.

Definition set_ResourceBase (c : ServiceClient) (base : string) : ServiceClient :=
  {| ProviderClient := ProviderClient c;
     Endpoint := Endpoint c;
     ResourceBase := base;
     Type_ := Type_ c |}.

(** [golangsdk.RequestOpts], the field the code sets. *)
Record RequestOpts : Type := { OkCodes : list Z }.

(** [golangsdk.Result]: the envelope embedded in [JobResult],
    [UpdateResult], [DeleteResult] and [GetResult]. *)
Record Result : Type := { Body : option JSON; Err : option error }.

Inductive Method : Type := GET | POST | PUT | DELETE.

(** One HTTP request as it leaves the client: [via] is the client struct
    the method was called on, as it was at the call. *)
Record Request : Type := {
  method : Method;
  url : string;
  body : option JSON;
  via : ServiceClient
}.

(** What comes back: a status line with a body, or no answer at all. *)
Inductive Response : Type :=
| Answer (status : Z) (payload : JSON)
| NoAnswer (msg : string).

(** The remote side and the parts of the SDK whose source is not at hand,
    taken as parameters: the server's reaction to a request, the status
    codes a verb accepts when the caller gives none, and the URL helpers
    ([ResourceBaseURL] of the client, [createURL], [actionURL] and
    [resourceURL] of the package). *)
Class Remote (Server : Type) : Type := {
  roundTrip : Request -> Server -> Response * Server;
  defaultOkCodes : Method -> list Z;
  ResourceBaseURL : ServiceClient -> string;
  createURL : ServiceClient -> string;
  actionURL : ServiceClient -> string -> string;
  resourceURL : ServiceClient -> string -> string
}.

(** Memory and remote side together: clients live in [heap] and are
    passed by address, [requests] is the log of the requests sent. *)
Definition loc := positive.

Record World (Server : Type) : Type := {
  heap : gmap loc ServiceClient;
  remote : Server;
  requests : list Request
}.
Arguments heap {Server} _.
Arguments remote {Server} _.
Arguments requests {Server} _.

(** A Go call either returns or panics (a nil or dangling dereference). *)
Inductive Outcome (A : Type) : Type :=
| Returned (a : A)
| Panicked.
Arguments Returned {A} a.
Arguments Panicked {A}.

Section Client.
Context {Server : Type} `{Remote Server}.

(** [*p] *)
Definition load (p : loc) : M (World Server) (option ServiceClient) :=
  fun w => (heap w !! p, w).

(** [*p = c] *)
Definition store (p : loc) (c : ServiceClient) : M (World Server) unit :=
  fun w => (tt, {| heap := <[p := c]> (heap w);
                   remote := remote w;
                   requests := requests w |}).

(** A new local variable holding [c]; its address. *)
Definition alloc (c : ServiceClient) : M (World Server) loc :=
  fun w => let p := fresh (dom (heap w)) in
           (p, {| heap := <[p := c]> (heap w);
                  remote := remote w;
                  requests := requests w |}).

Definition okCode (codes : list Z) (status : Z) : bool :=
  existsb (Z.eqb status) codes.

(** Modelled from the spec: the HTTP client collaborator
    ([ServiceClient.Request], whose source is not at hand).  It sends the
    request, accepts the status codes of the custom list (the verb's
    defaults when the caller passes no options), and turns every other
    status into an error, 404 into the not-found kind that callers can
    match.  The response body is handed back on success only. *)
Definition Request_ (client : ServiceClient) (m : Method) (u : string)
    (b : option JSON) (opts : option RequestOpts)
  : M (World Server) (option JSON * option error) :=
  fun w =>
    let req := {| method := m; url := u; body := b; via := client |} in
    let codes := match opts with
                 | Some o => OkCodes o
                 | None => defaultOkCodes m
                 end in
    let '(resp, srv) := roundTrip req (remote w) in
    let w' := {| heap := heap w; remote := srv;
                 requests := (requests w ++ [req])%list |} in
    match resp with
    | NoAnswer msg => ((None, Some (ErrTransport msg)), w')
    | Answer status payload =>
        if okCode codes status then ((Some payload, None), w')
        else if Z.eqb status 404 then ((None, Some (ErrDefault404 u)), w')
        else ((None, Some (ErrUnexpectedResponseCode status)), w')
    end.

(** [client.Post(url, body, &resp, opts)] and its siblings, on the
    client stored at [p]; a panic when [p] is no valid address. *)
Definition call (p : loc) (m : Method) (u : string) (b : option JSON)
    (opts : option RequestOpts)
  : M (World Server) (Outcome (option JSON * option error)) :=
  do oc <- load p;
  match oc with
  | None => ret Panicked
  | Some c => do r <- Request_ c m u b opts; ret (Returned r)
  end.

Definition Post p u b opts := call p POST u (Some b) opts.
Definition Put p u b opts := call p PUT u (Some b) opts.
Definition Delete p u opts := call p DELETE u None opts.
Definition Get p u opts := call p GET u None opts.
End Client.

End golangsdk.

(** ** The cloud-volume requests *)

Module cloudvolumes.
Import golangsdk.

(** The option builders are interfaces with one method and no argument: a
    value of the interface is what that method answers. *)
Record CreateOptsBuilder : Type := { ToVolumeCreateMap : JSON * option error }.
Record ExtendOptsBuilder : Type := { ToVolumeExtendMap : JSON * option error }.
Record UpdateOptsBuilder : Type := { ToVolumeUpdateMap : JSON * option error }.
Record DeleteOptsBuilder : Type := { ToVolumeDeleteQuery : string * option error }.

Definition JobResult := Result.
Definition UpdateResult := Result.
Definition DeleteResult := Result.
Definition GetResult := Result.

Section Requests.
Context {Server : Type} `{Remote Server}.

Local Abbreviation Call A := (M (World Server) (Outcome A)).

(** Reading through a pointer, panicking when it is not valid. *)
Definition deref {A} (p : loc) (k : ServiceClient -> Call A) : Call A :=
  do oc <- load p;
  match oc with
  | None => ret Panicked
  | Some c => k c
  end.

(** [_, r.Err = ...]: the call's error goes to [r.Err]; the response
    reaches [r.Body] when the call was given [&r.Body]. *)
Definition into (keepBody : bool)
    (o : Outcome (option JSON * option error)) : Outcome Result :=
  match o with
  | Panicked => Panicked
  | Returned (b, e) =>
      Returned {| Body := if keepBody then b else None; Err := e |}
  end.

Definition failed (err : error) : Result := {| Body := None; Err := Some err |}.

Definition Create (client : loc) (opts : CreateOptsBuilder) : Call JobResult :=
  let '(b, err) := ToVolumeCreateMap opts in
  match err with
  | Some e => ret (Returned (failed e))
  | None =>
      deref client (fun c =>
      do newClient <- alloc c;
      deref newClient (fun nc =>
      let baseURL := ResourceBaseURL nc in
      do _ <- store newClient
                (set_ResourceBase nc (strings_Replace1 baseURL "/v2/" "/v2.1/"));
      deref newClient (fun nc' =>
      do o <- Post newClient (createURL nc') b None;
      ret (into true o))))
  end.

Definition ExtendSize (client : loc) (id : string) (opts : ExtendOptsBuilder)
  : Call JobResult :=
  let '(b, err) := ToVolumeExtendMap opts in
  match err with
  | Some e => ret (Returned (failed e))
  | None =>
      deref client (fun c =>
      do newClient <- alloc c;
      deref newClient (fun nc =>
      let baseURL := ResourceBaseURL nc in
      do _ <- store newClient
                (set_ResourceBase nc (strings_Replace1 baseURL "/v2/" "/v2.1/"));
      deref newClient (fun nc' =>
      do o <- Post newClient (actionURL nc' id) b (Some {| OkCodes := [202] |});
      ret (into false o))))
  end.

Definition Update (client : loc) (id : string) (opts : UpdateOptsBuilder)
  : Call UpdateResult :=
  let '(b, err) := ToVolumeUpdateMap opts in
  match err with
  | Some e => ret (Returned (failed e))
  | None =>
      deref client (fun c =>
      do o <- Put client (resourceURL c id) b (Some {| OkCodes := [200] |});
      ret (into true o))
  end.

Definition Delete (client : loc) (id : string) (opts : option DeleteOptsBuilder)
  : Call DeleteResult :=
  deref client (fun c =>
  let url := resourceURL c id in
  let send (u : string) : Call DeleteResult :=
    do o <- golangsdk.Delete client u (Some {| OkCodes := [200] |});
    ret (into false o) in
  match opts with
  | Some o =>
      let '(q, err) := ToVolumeDeleteQuery o in
      match err with
      | Some e => ret (Returned (failed e))
      | None => send (url ++ q)
      end
  | None => send url
  end).

Definition Get (client : loc) (id : string) : Call GetResult :=
  deref client (fun c =>
  do o <- golangsdk.Get client (resourceURL c id) None;
  ret (into true o)).
End Requests.

End cloudvolumes.

(** ** The state poller *)

Module resource.

Section Poller.
Context {W V : Type}.

(** [resource.StateRefreshFunc]: [func() (interface{}, string, error)],
    a closure over the remote side. *)
Definition StateRefreshFunc : Type := M W (option V * string * option error).

(** [resource.StateChangeConf] with the fields the resource sets; a field
    the code leaves out has Go's zero value. *)
Record StateChangeConf : Type := {
  Pending : list string;
  Target : list string;
  Refresh : StateRefreshFunc;
  Timeout : Duration;
  Delay : Duration;
  MinTimeout : Duration;
  PollInterval : Duration
}.

(** The result of a wait, with what the run did: the label and error of
    every refresh invocation in order, and the time slept. *)
Record Report : Type := {
  value : option V;
  failure : option error;
  observed : list (string * option error);
  waited : Duration
}.

Definition inSet (label : string) (set : list string) : bool :=
  existsb (String.eqb label) set.

(** The label that stands for a resource that is gone. *)
Definition absentSentinel : string := "DELETED".

Definition interval (c : StateChangeConf) : Duration :=
  Z.max (PollInterval c) (MinTimeout c).

Definition lastState (obs : list (string * option error)) : string :=
  fst (List.last obs ("", None)).

Definition stop (v : option V) (f : option error)
    (obs : list (string * option error)) (t : Duration) : Report :=
  {| value := v; failure := f; observed := obs; waited := t |}.

(** A configuration that names no pending label. *)
Definition noPending (c : StateChangeConf) : bool :=
  match Pending c with
  | [] => true
  | _ :: _ => false
  end.

(** Modelled from the spec: the poll loop of the state poller
    ([StateChangeConf.WaitForState], whose source is not at hand), step 2
    and 3 of its algorithm.  Past the deadline it reports a timeout with
    the last observed state.  Otherwise it invokes refresh: an error stops
    the poll, as success when it is the not-found kind and the target set
    holds the absent sentinel, as a failure otherwise; a target label
    stops it with the returned value; a label that is in the pending set,
    "or simply not yet a target/error" when the configuration names no
    pending label, makes it sleep one interval and repeat; a label that is
    in neither set of a configuration with pending labels, outside its
    known set, is fatal.  The sleep is the poll interval, and no less than
    the minimum timeout.  [fuel] bounds the number of invocations, see
    [polls_before_deadline]. *)
Fixpoint poll (c : StateChangeConf) (fuel : nat) (elapsed : Duration)
    (obs : list (string * option error)) : M W Report :=
  fun w =>
    let timedOut :=
      stop None (Some (TimeoutError (lastState obs) (Timeout c))) obs elapsed in
    if Z.ltb (Timeout c) elapsed then (timedOut, w)
    else
      match fuel with
      | O => (timedOut, w)
      | S fuel' =>
          let '((v, label, err), w') := Refresh c w in
          let obs' := (obs ++ [(label, err)])%list in
          match err with
          | Some e =>
              if isErrDefault404 e && inSet absentSentinel (Target c)
              then (stop v None obs' elapsed, w')
              else (stop None (Some e) obs' elapsed, w')
          | None =>
              if inSet label (Target c)
              then (stop v None obs' elapsed, w')
              else if inSet label (Pending c) || noPending c
              then poll c fuel' (elapsed + interval c) obs' w'
              else (stop None
                      (Some (UnexpectedStateError label (Target c)))
                      obs' elapsed, w')
          end
      end.

(** The invocations that fit between the initial delay and the deadline
    when every one of them is followed by a sleep of one interval. *)
Definition polls_before_deadline (c : StateChangeConf) : nat :=
  S (Z.to_nat ((Timeout c - Delay c) / interval c)).

(** Modelled from the spec: [WaitForState], step 1: wait the initial
    delay, then poll. *)
Definition WaitForState (c : StateChangeConf) : M W Report :=
  poll c (polls_before_deadline c) (Delay c) [].

(** Go's [(interface{}, error)] of a report. *)
Definition result (r : Report) : option V * option error :=
  (value r, failure r).
End Poller.

Arguments StateRefreshFunc : clear implicits.
Arguments StateChangeConf : clear implicits.
Arguments Report : clear implicits.

End resource.

(** ** The NAT gateway package of the SDK *)

Module natgateways.
Import golangsdk.

Record NatGateway : Type := {
  ID : string;
  Name : string;
  Description : string;
  Spec : string;
  Status : string;
  RouterID : string;
  InternalNetworkID : string;
  TenantID : string
}.

Module CreateOpts.
Record t : Type := {
  Name : string;
  Description : string;
  Spec : string;
  TenantID : string;
  RouterID : string;
  InternalNetworkID : string
}.
End CreateOpts.

Module UpdateOpts.
Record t : Type := {
  Name : string;
  Description : string;
  Spec : string
}.
(** [var updateOpts natgateways.UpdateOpts] *)
Definition zero : t := {| Name := ""; Description := ""; Spec := "" |}.
Definition set_Name (o : t) (v : string) : t :=
  {| Name := v; Description := Description o; Spec := Spec o |}.
Definition set_Description (o : t) (v : string) : t :=
  {| Name := Name o; Description := v; Spec := Spec o |}.
Definition set_Spec (o : t) (v : string) : t :=
  {| Name := Name o; Description := Description o; Spec := v |}.
End UpdateOpts.

(** The calls that reach the NAT gateway endpoint, in the order made. *)
Inductive Call : Type :=
| CallPost (opts : CreateOpts.t)
| CallGet (id : string)
| CallPut (id : string) (b : JSON)
| CallDelete (id : string).

(** The package's source is not at hand.  The remote side of its four
    requests is a parameter: what the endpoint answers, already decoded
    ([.Extract()], [.ExtractErr()]), and how it changes. *)
Class Endpoint (Server : Type) : Type := {
  post : ServiceClient -> CreateOpts.t -> Server -> (NatGateway + error) * Server;
  get : ServiceClient -> string -> Server -> (NatGateway + error) * Server;
  put : ServiceClient -> string -> JSON -> Server -> (NatGateway + error) * Server;
  delete : ServiceClient -> string -> Server -> option error * Server
}.

Record World (Server : Type) : Type := {
  server : Server;
  calls : list Call
}.
Arguments server {Server} _.
Arguments calls {Server} _.

Section Requests.
Context {Server : Type} `{Endpoint Server}.

Definition request {A} (c : Call) (f : Server -> A * Server)
  : M (World Server) A :=
  fun w => let '(a, srv) := f (server w) in
           (a, {| server := srv; calls := (calls w ++ [c])%list |}).

(** [natgateways.Create(c, opts).Extract()] *)
Definition Create (c : ServiceClient) (opts : CreateOpts.t) :=
  request (CallPost opts) (post c opts).

(** [natgateways.Get(c, id).Extract()] *)
Definition Get (c : ServiceClient) (id : string) :=
  request (CallGet id) (get c id).

(** [natgateways.Delete(c, id).ExtractErr()] *)
Definition Delete (c : ServiceClient) (id : string) :=
  request (CallDelete id) (delete c id).

(** A field of the body, left out when it has its zero value. *)
Definition omitempty (key value : string) : list (string * JSON) :=
  if String.eqb value "" then [] else [(key, JString value)].

(** Modelled from the spec: the body of an update
    ([UpdateOpts.ToNatGatewayUpdateMap], whose source is not at hand):
    options are serialized with only the non-empty fields included. *)
Definition ToNatGatewayUpdateMap (opts : UpdateOpts.t) : JSON :=
  JObject [("nat_gateway",
            JObject (omitempty "name" (UpdateOpts.Name opts) ++
                     omitempty "description" (UpdateOpts.Description opts) ++
                     omitempty "spec" (UpdateOpts.Spec opts))%list)].

(** Modelled from the spec: [natgateways.Update(c, id, opts).Extract()],
    whose source is not at hand: the options are turned into a body and a
    PUT is issued on the resource, as [cloudvolumes.Update] does. *)
Definition Update (c : ServiceClient) (id : string) (opts : UpdateOpts.t) :=
  let b := ToNatGatewayUpdateMap opts in
  request (CallPut id b) (put c id b).
End Requests.

End natgateways.

(** ** Terraform's resource data *)

Module schema.

Inductive TimeoutKey : Type := TimeoutCreate | TimeoutDelete.

(** [schema.ResourceTimeout]: a duration per operation, when set. *)
Record ResourceTimeout : Type := {
  Create : option Duration;
  Delete : option Duration
}.

(** [schema.ResourceData], as the resource functions use it ([d.Id],
    [d.Get], [d.HasChange], [d.Timeout], [d.Set], [d.SetId]).  [attrs] is
    what [d.Get] reads, [changed] what [d.HasChange] answers, [timeouts] the
    durations of the configuration's [timeouts] block. *)
Record ResourceData : Type := {
  Id : string;
  attrs : gmap string string;
  changed : gset string;
  timeouts : ResourceTimeout
}.

(** [d.Get(key).(string)]: the zero value for a key that is not set. *)
Definition Get (d : ResourceData) (key : string) : string :=
  default "" (attrs d !! key).

Definition HasChange (d : ResourceData) (key : string) : bool :=
  bool_decide (key ∈ changed d).

Definition Set_ (d : ResourceData) (key value : string) : ResourceData :=
  {| Id := Id d; attrs := <[key := value]> (attrs d);
     changed := changed d; timeouts := timeouts d |}.

Definition SetId (d : ResourceData) (id : string) : ResourceData :=
  {| Id := id; attrs := attrs d; changed := changed d; timeouts := timeouts d |}.

Definition lookupTimeout (t : ResourceTimeout) (key : TimeoutKey) : option Duration :=
  match key with
  | TimeoutCreate => Create t
  | TimeoutDelete => Delete t
  end.

(** [d.Timeout(key)] for a resource whose defaults are [defaults]: the
    duration the configuration sets for the operation, the resource's
    default when it sets none, Terraform's own default of 20 minutes when
    the resource has none either.  The method's source is not at hand; this
    is what the [Timeouts] of the resource ([schema.DefaultTimeout]) stand
    for. *)
Definition Timeout (defaults : ResourceTimeout) (d : ResourceData)
    (key : TimeoutKey) : Duration :=
  match lookupTimeout (timeouts d) key with
  | Some t => t
  | None => default (20 * Minute)%Z (lookupTimeout defaults key)
  end.

End schema.

(** ** The NAT gateway resource *)

(** The provider's configuration and helpers whose source is not at hand:
    the region of a resource, the construction of the VPC client, which may
    fail, and [CheckDeleted]. *)
Class Provider (Config : Type) : Type := {
  GetRegion : schema.ResourceData -> Config -> string;
  vpcV2Client : Config -> string -> golangsdk.ServiceClient + error;
  CheckDeleted : schema.ResourceData -> error -> string
                 -> schema.ResourceData * option error
}.

(** The [Timeouts] of [resourceVpcNatGatewayV2]. *)
Definition resourceVpcNatGatewayV2_Timeouts : schema.ResourceTimeout :=
  {| schema.Create := Some (10 * Minute)%Z;
     schema.Delete := Some (10 * Minute)%Z |}.

Section NatGatewayResource.
Context {Server Config : Type}.
Context `{natgateways.Endpoint Server} `{Provider Config}.

Import natgateways.

Local Abbreviation World := (natgateways.World Server).
Local Abbreviation RefreshFunc := (resource.StateRefreshFunc World NatGateway).
Local Abbreviation Conf := (resource.StateChangeConf World NatGateway).

Definition waitForNatGatewayActive (vpcV2Client : golangsdk.ServiceClient)
    (nId : string) : RefreshFunc :=
  do r <- natgateways.Get vpcV2Client nId;
  match r with
  | inr err => ret (None, "", Some err)
  | inl n =>
      if String.eqb (Status n) "ACTIVE" then ret (Some n, "ACTIVE", None)
      else ret (Some n, "", None)
  end.

Definition waitForNatGatewayDelete (vpcV2Client : golangsdk.ServiceClient)
    (nId : string) : RefreshFunc :=
  do r <- natgateways.Get vpcV2Client nId;
  match r with
  | inr err =>
      if isErrDefault404 err then ret (None, "DELETED", None)
      else ret (None, "ACTIVE", Some err)
  | inl n =>
      do e <- natgateways.Delete vpcV2Client nId;
      match e with
      | Some err =>
          if isErrDefault404 err then ret (Some n, "DELETED", None)
          else ret (Some n, "ACTIVE", Some err)
      | None => ret (Some n, "ACTIVE", None)
      end
  end.

(** What the endpoint answers during one delete refresh that starts in
    [w]: the error of Get, or the error of Delete when Get succeeded. *)
Definition deleteRefreshError (vpcV2Client : golangsdk.ServiceClient)
    (nId : string) (w : World) : option error :=
  match get vpcV2Client nId (server w) with
  | (inr err, _) => Some err
  | (inl _, srv) => fst (delete vpcV2Client nId srv)
  end.

(** The [stateConf] of [resourceVpcNatGatewayV2Create]. *)
Definition createStateConf (d : schema.ResourceData)
    (vpcV2Client : golangsdk.ServiceClient) (id : string) : Conf :=
  {| resource.Pending := [];
     resource.Target := ["ACTIVE"];
     resource.Refresh := waitForNatGatewayActive vpcV2Client id;
     resource.Timeout :=
       schema.Timeout resourceVpcNatGatewayV2_Timeouts d schema.TimeoutCreate;
     resource.Delay := (5 * Second)%Z;
     resource.MinTimeout := (3 * Second)%Z;
     resource.PollInterval := 0%Z |}.

(** The [stateConf] of [resourceVpcNatGatewayV2Delete]. *)
Definition deleteStateConf (d : schema.ResourceData)
    (vpcV2Client : golangsdk.ServiceClient) : Conf :=
  {| resource.Pending := ["ACTIVE"];
     resource.Target := ["DELETED"];
     resource.Refresh := waitForNatGatewayDelete vpcV2Client (schema.Id d);
     resource.Timeout :=
       schema.Timeout resourceVpcNatGatewayV2_Timeouts d schema.TimeoutDelete;
     resource.Delay := (5 * Second)%Z;
     resource.MinTimeout := (3 * Second)%Z;
     resource.PollInterval := 0%Z |}.

Definition clientError (err : error) : error :=
  Wrapf "Error creating HuaweiCloud vpc client: %s" err.

Definition resourceVpcNatGatewayV2Read (d : schema.ResourceData) (meta : Config)
  : M World (schema.ResourceData * option error) :=
  match vpcV2Client meta (GetRegion d meta) with
  | inr err => ret (d, Some (clientError err))
  | inl client =>
      do r <- natgateways.Get client (schema.Id d);
      match r with
      | inr err => ret (CheckDeleted d err "Nat Gateway")
      | inl natGateway =>
          let d := schema.Set_ d "name" (Name natGateway) in
          let d := schema.Set_ d "description" (Description natGateway) in
          let d := schema.Set_ d "spec" (Spec natGateway) in
          let d := schema.Set_ d "router_id" (RouterID natGateway) in
          let d := schema.Set_ d "internal_network_id" (InternalNetworkID natGateway) in
          let d := schema.Set_ d "tenant_id" (TenantID natGateway) in
          let d := schema.Set_ d "region" (GetRegion d meta) in
          ret (d, None)
      end
  end.

Definition resourceVpcNatGatewayV2Create (d : schema.ResourceData) (meta : Config)
  : M World (schema.ResourceData * option error) :=
  match vpcV2Client meta (GetRegion d meta) with
  | inr err => ret (d, Some (clientError err))
  | inl client =>
      let createOpts :=
        {| CreateOpts.Name := schema.Get d "name";
           CreateOpts.Description := schema.Get d "description";
           CreateOpts.Spec := schema.Get d "spec";
           CreateOpts.TenantID := schema.Get d "tenant_id";
           CreateOpts.RouterID := schema.Get d "router_id";
           CreateOpts.InternalNetworkID := schema.Get d "internal_network_id" |} in
      do r <- natgateways.Create client createOpts;
      match r with
      | inr err => ret (d, Some (Wrapf "Error creatting Nat Gateway: %s" err))
      | inl natGateway =>
          let stateConf := createStateConf d client (ID natGateway) in
          do rep <- resource.WaitForState stateConf;
          match resource.failure rep with
          | Some err =>
              ret (d, Some (Wrapf "Error creating HuaweiCloud Nat Gateway: %s" err))
          | None =>
              let d := schema.SetId d (ID natGateway) in
              resourceVpcNatGatewayV2Read d meta
          end
      end
  end.

(** The three [if d.HasChange(...)] of [resourceVpcNatGatewayV2Update]. *)
Definition buildUpdateOpts (d : schema.ResourceData) : UpdateOpts.t :=
  let updateOpts := UpdateOpts.zero in
  let updateOpts :=
    if schema.HasChange d "name"
    then UpdateOpts.set_Name updateOpts (schema.Get d "name")
    else updateOpts in
  let updateOpts :=
    if schema.HasChange d "description"
    then UpdateOpts.set_Description updateOpts (schema.Get d "description")
    else updateOpts in
  let updateOpts :=
    if schema.HasChange d "spec"
    then UpdateOpts.set_Spec updateOpts (schema.Get d "spec")
    else updateOpts in
  updateOpts.

Definition resourceVpcNatGatewayV2Update (d : schema.ResourceData) (meta : Config)
  : M World (schema.ResourceData * option error) :=
  match vpcV2Client meta (GetRegion d meta) with
  | inr err => ret (d, Some (clientError err))
  | inl client =>
      let updateOpts := buildUpdateOpts d in
      do r <- natgateways.Update client (schema.Id d) updateOpts;
      match r with
      | inr err => ret (d, Some (Wrapf "Error updating Nat Gateway: %s" err))
      | inl _ => resourceVpcNatGatewayV2Read d meta
      end
  end.

Definition resourceVpcNatGatewayV2Delete (d : schema.ResourceData) (meta : Config)
  : M World (schema.ResourceData * option error) :=
  match vpcV2Client meta (GetRegion d meta) with
  | inr err => ret (d, Some (clientError err))
  | inl client =>
      let stateConf := deleteStateConf d client in
      do rep <- resource.WaitForState stateConf;
      match resource.failure rep with
      | Some err =>
          ret (d, Some (Wrapf "Error deleting HuaweiCloud Nat Gateway: %s" err))
      | None => ret (schema.SetId d "", None)
      end
  end.
End NatGatewayResource.

(** ** Simulated remote sides

    Small executable stand-ins for the parameters above, on which the
    functions can be run. *)

Module Sim.
Import natgateways.

(** A NAT gateway endpoint: the gateways that exist, the number of delete
    requests it will still drop silently, and, when it is broken, the
    status it answers every request with. *)
Record Server : Type := {
  gateways : gmap string NatGateway;
  drops : nat;
  broken : option Z
}.

Definition gw (id status : string) : NatGateway :=
  {| ID := id; Name := "nat"; Description := ""; Spec := "1";
     Status := status; RouterID := "r"; InternalNetworkID := "n";
     TenantID := "t" |}.

Definition answer {A} (s : Server) (ok : Server -> (A + error) * Server)
  : (A + error) * Server :=
  match broken s with
  | Some code => (inr (ErrUnexpectedResponseCode code), s)
  | None => ok s
  end.

Definition sim_get (id : string) (s : Server) : (NatGateway + error) * Server :=
  answer s (fun s =>
    match gateways s !! id with
    | Some g => (inl g, s)
    | None => (inr (ErrDefault404 id), s)
    end).

Definition sim_delete (id : string) (s : Server) : option error * Server :=
  match broken s with
  | Some code => (Some (ErrUnexpectedResponseCode code), s)
  | None =>
      match gateways s !! id with
      | None => (Some (ErrDefault404 id), s)
      | Some _ =>
          match drops s with
          | O => (None, {| gateways := base.delete id (gateways s);
                           drops := O; broken := None |})
          | S n => (None, {| gateways := gateways s; drops := n; broken := None |})
          end
      end
  end.

Definition sim_post (opts : CreateOpts.t) (s : Server)
  : (NatGateway + error) * Server :=
  answer s (fun s =>
    let g := {| ID := "gw-new"; Name := CreateOpts.Name opts;
                Description := CreateOpts.Description opts;
                Spec := CreateOpts.Spec opts; Status := "ACTIVE";
                RouterID := CreateOpts.RouterID opts;
                InternalNetworkID := CreateOpts.InternalNetworkID opts;
                TenantID := CreateOpts.TenantID opts |} in
    (inl g, {| gateways := <["gw-new" := g]> (gateways s);
               drops := drops s; broken := None |})).

Definition sim_put (id : string) (b : JSON) (s : Server)
  : (NatGateway + error) * Server :=
  sim_get id s.

#[export] Instance endpoint : Endpoint Server :=
  {| post := fun _ => sim_post;
     get := fun _ => sim_get;
     put := fun _ => sim_put;
     delete := fun _ => sim_delete |}.

Definition client : golangsdk.ServiceClient :=
  {| golangsdk.ProviderClient := 1%nat;
     golangsdk.Endpoint := "https://evs.example.com/v2/project/";
     golangsdk.ResourceBase := "";
     golangsdk.Type_ := "volumev2" |}.

#[export] Instance provider : Provider unit :=
  {| GetRegion := fun _ _ => "region-1";
     vpcV2Client := fun _ _ => inl client;
     CheckDeleted := fun d err _ =>
       if isErrDefault404 err then (schema.SetId d "", None)
       else (d, Some err) |}.

Definition world (s : Server) : World Server := {| server := s; calls := [] |}.

Definition with_gateway (status : string) (n : nat) : Server :=
  {| gateways := {["gw-1" := gw "gw-1" status]}; drops := n; broken := None |}.
Definition empty : Server :=
  {| gateways := ∅; drops := O; broken := None |}.
Definition down (code : Z) : Server :=
  {| gateways := {["gw-1" := gw "gw-1" "ACTIVE"]}; drops := O; broken := Some code |}.

Definition data (t : schema.ResourceTimeout) (ch : list string) : schema.ResourceData :=
  {| schema.Id := "gw-1";
     schema.attrs := {["name" := "nat-2"; "description" := "d"; "spec" := "2"]};
     schema.changed := list_to_set ch;
     schema.timeouts := t |}.
Definition no_timeouts : schema.ResourceTimeout :=
  {| schema.Create := None; schema.Delete := None |}.

(** The delete wait of the resource on endpoint [s]: its error, the log of
    its refresh invocations, the time slept and the calls made. *)
Definition run_delete (s : Server)
  : option error * list (string * option error) * Duration * list Call :=
  let '(rep, w) :=
    resource.WaitForState (deleteStateConf (data no_timeouts []) client) (world s) in
  (resource.failure rep, resource.observed rep, resource.waited rep, calls w).

(** An HTTP server that answers the requests it receives with the statuses
    of a script, in order, and stops answering when the script is over. *)
Definition Script : Type := list Z.

Definition baseURL (c : golangsdk.ServiceClient) : string :=
  if String.eqb (golangsdk.ResourceBase c) "" then golangsdk.Endpoint c
  else golangsdk.ResourceBase c.

#[export] Instance remote : golangsdk.Remote Script :=
  {| golangsdk.roundTrip := fun _ s =>
       match s with
       | [] => (golangsdk.NoAnswer "connection refused", [])
       | status :: rest => (golangsdk.Answer status JNull, rest)
       end;
     golangsdk.defaultOkCodes := fun m =>
       match m with
       | golangsdk.GET => [200]
       | golangsdk.POST => [200; 201; 202]
       | golangsdk.PUT => [200; 201; 202]
       | golangsdk.DELETE => [202; 204]
       end%Z;
     golangsdk.ResourceBaseURL := baseURL;
     golangsdk.createURL := fun c => baseURL c ++ "cloudvolumes";
     golangsdk.actionURL := fun c id => baseURL c ++ "cloudvolumes/" ++ id ++ "/action";
     golangsdk.resourceURL := fun c id => baseURL c ++ "cloudvolumes/" ++ id |}.

Definition memory (s : Script) : golangsdk.World Script :=
  {| golangsdk.heap := {[1%positive := client]};
     golangsdk.remote := s;
     golangsdk.requests := [] |}.

Definition good (b : JSON) : JSON * option error := (b, None).
Definition bad {A} (a : A) : A * option error := (a, Some (ErrBuilder "missing input")).
End Sim.

(** ** More simulated sides *)

Module SimMore.
Import Sim.

(** A provider whose VPC client can be built only when the configuration
    says so. *)
#[export] Instance switchable : Provider bool :=
  {| GetRegion := fun _ _ => "region-1";
     vpcV2Client := fun (ok : bool) (_ : string) =>
       if ok then inl Sim.client else inr (ErrTransport "no endpoint");
     CheckDeleted := fun d err _ =>
       if isErrDefault404 err then (schema.SetId d "", None)
       else (d, Some err) |}.



(** A client of an endpoint that is not a v2 one, and a memory holding it. *)
Definition client_v3 : golangsdk.ServiceClient :=
  {| golangsdk.ProviderClient := 1%nat;
     golangsdk.Endpoint := "https://evs.example.com/v3/project/";
     golangsdk.ResourceBase := "";
     golangsdk.Type_ := "volumev3" |}.

Definition memory_v3 (s : Sim.Script) : golangsdk.World Sim.Script :=
  {| golangsdk.heap := {[1%positive := client_v3]};
     golangsdk.remote := s;
     golangsdk.requests := [] |}.

End SimMore.

(** ** Names for parts of the resource functions

    Used to state what the functions do; the functions themselves are the
    ones above. *)

(** The [createOpts] that [resourceVpcNatGatewayV2Create] builds from the
    resource data. *)
Definition createOptsOf (d : schema.ResourceData) : natgateways.CreateOpts.t :=
  {| natgateways.CreateOpts.Name := schema.Get d "name";
     natgateways.CreateOpts.Description := schema.Get d "description";
     natgateways.CreateOpts.Spec := schema.Get d "spec";
     natgateways.CreateOpts.TenantID := schema.Get d "tenant_id";
     natgateways.CreateOpts.RouterID := schema.Get d "router_id";
     natgateways.CreateOpts.InternalNetworkID := schema.Get d "internal_network_id" |}.

(** The six [d.Set] of [resourceVpcNatGatewayV2Read] that copy the gateway,
    in the order of the source. *)
Definition setGateway (d : schema.ResourceData) (n : natgateways.NatGateway)
  : schema.ResourceData :=
  let d := schema.Set_ d "name" (natgateways.Name n) in
  let d := schema.Set_ d "description" (natgateways.Description n) in
  let d := schema.Set_ d "spec" (natgateways.Spec n) in
  let d := schema.Set_ d "router_id" (natgateways.RouterID n) in
  let d := schema.Set_ d "internal_network_id" (natgateways.InternalNetworkID n) in
  schema.Set_ d "tenant_id" (natgateways.TenantID n).

(** One round of the delete refresh in which both requests were sent. *)
Definition getThenDelete (id : string) : list natgateways.Call :=
  [natgateways.CallGet id; natgateways.CallDelete id].

(** * Properties *)

(** ** The validator *)

Lemma validate_loop_In value specs :
  validate_loop value specs = true <-> In value specs.
Proof.
  induction specs as [|s rest IH]; simpl.
  - split; [discriminate | tauto].
  - destruct (String.eqb value s) eqn:E.
    + apply String.eqb_eq in E. subst. tauto.
    + apply String.eqb_neq in E. rewrite IH. split; [tauto|].
      intros [H|H]; [congruence | exact H].
Qed.

(** C10: the validator returns no error exactly on "1", "2", "3", "4",
    exactly one error on every other input, and never a warning. *)
Theorem validate_spec_correct (v k : string) :
  (snd (resourceNatGatewayV2ValidateSpec v k) = [] <->
     (v = "1" \/ v = "2" \/ v = "3" \/ v = "4")) /\
  ((v = "1" \/ v = "2" \/ v = "3" \/ v = "4") \/
     snd (resourceNatGatewayV2ValidateSpec v k) = [specs_error k]) /\
  fst (resourceNatGatewayV2ValidateSpec v k) = [].
Proof.
  unfold resourceNatGatewayV2ValidateSpec.
  destruct (validate_loop v Specs) eqn:E; simpl.
  - apply validate_loop_In in E. simpl in E.
    assert (Hv : v = "1" \/ v = "2" \/ v = "3" \/ v = "4") by intuition congruence.
    repeat split; auto.
  - assert (Hn : ~ In v Specs).
    { intros H. apply validate_loop_In in H. congruence. }
    simpl in Hn. repeat split; auto.
    + discriminate.
    + intros H. exfalso. apply Hn. intuition congruence.
Qed.

(** ** Strings *)

Lemma hasPrefix_app p t : hasPrefix p (p ++ t) = true.
Proof.
  induction p as [|a p IH]; simpl.
  - reflexivity.
  - rewrite Ascii.eqb_refl. exact IH.
Qed.

Lemma hasPrefix_inv p s :
  hasPrefix p s = true -> exists t, s = p ++ t.
Proof.
  revert s. induction p as [|a p IH]; intros s Hp; simpl in *.
  - exists s. reflexivity.
  - destruct s as [|b s]; [discriminate|].
    destruct (Ascii.eqb a b) eqn:E; [|discriminate].
    apply Ascii.eqb_eq in E. subst b.
    destruct (IH _ Hp) as [t ->]. exists t. reflexivity.
Qed.

Lemma dropPrefix_app p t : dropPrefix (String.length p) (p ++ t) = t.
Proof. induction p as [|a p IH]; simpl; [destruct t|]; auto. Qed.

Lemma append_empty_l (s : string) : "" ++ s = s.
Proof. reflexivity. Qed.

Lemma append_String_l c (s t : string) : String c s ++ t = String c (s ++ t).
Proof. reflexivity. Qed.

(** [strings.Index] finds an occurrence, and the leftmost one. *)
Lemma strings_Index_occurs s old k :
  strings_Index s old = Some k ->
  exists pre post, s = pre ++ old ++ post /\ String.length pre = k.
Proof.
  revert k. induction s as [|c s IH]; intros k; simpl.
  - destruct (hasPrefix old "") eqn:E; [|discriminate].
    intros [= <-]. apply hasPrefix_inv in E as [t Ht].
    exists "", t. split; [exact Ht | reflexivity].
  - destruct (hasPrefix old (String c s)) eqn:E.
    + intros [= <-]. apply hasPrefix_inv in E as [t Ht].
      exists "", t. split; [exact Ht | reflexivity].
    + destruct (strings_Index s old) as [k'|]; simpl; [|discriminate].
      intros [= <-]. destruct (IH _ eq_refl) as (pre & post & -> & Hl).
      exists (String c pre), post. simpl. rewrite Hl. split; reflexivity.
Qed.

Lemma strings_Index_leftmost s old k pre post :
  strings_Index s old = Some k ->
  s = pre ++ old ++ post ->
  (k <= String.length pre)%nat.
Proof.
  revert k pre. induction s as [|c s IH]; intros k pre; simpl.
  - destruct (hasPrefix old "") eqn:E; [|discriminate].
    intros [= <-] _. lia.
  - destruct (hasPrefix old (String c s)) eqn:E.
    + intros [= <-] _. lia.
    + destruct (strings_Index s old) as [k'|] eqn:Ei; simpl; [|discriminate].
      intros [= <-] Hs. destruct pre as [|a pre].
      * rewrite append_empty_l in Hs.
        rewrite Hs, hasPrefix_app in E. discriminate.
      * rewrite append_String_l in Hs. injection Hs as -> Hs. simpl.
        specialize (IH _ _ eq_refl Hs). lia.
Qed.

(** [strings.Replace(s, old, new, 1)] rewrites the occurrence that
    [strings.Index] finds and nothing else. *)
Lemma strings_Replace1_at_Index pre post old new :
  strings_Index (pre ++ old ++ post) old = Some (String.length pre) ->
  strings_Replace1 (pre ++ old ++ post) old new = pre ++ new ++ post.
Proof.
  induction pre as [|c pre IH].
  - intros _. rewrite !append_empty_l.
    destruct (old ++ post) eqn:E; simpl;
      rewrite <- E, hasPrefix_app, dropPrefix_app; reflexivity.
  - rewrite !append_String_l. simpl.
    destruct (hasPrefix old (String c (pre ++ old ++ post))); [discriminate|].
    destruct (strings_Index (pre ++ old ++ post) old) as [k|] eqn:Ei;
      simpl; [|discriminate].
    intros [= ->]. rewrite IH; reflexivity.
Qed.

Lemma strings_Replace1_absent s old new :
  strings_Index s old = None -> strings_Replace1 s old new = s.
Proof.
  induction s as [|c s IH]; simpl.
  - destruct (hasPrefix old ""); [discriminate | reflexivity].
  - destruct (hasPrefix old (String c s)); [discriminate|].
    destruct (strings_Index s old); simpl; [discriminate|].
    intros _. rewrite IH; reflexivity.
Qed.

(** ** The poll loop *)

Section PollerFacts.
Context {W V : Type}.
Import resource.

Implicit Types (c : StateChangeConf W V) (w : W) (fuel : nat)
  (obs : list (string * option error)) (elapsed : Duration).

Lemma inSet_In label set : inSet label set = true <-> In label set.
Proof.
  unfold inSet. rewrite existsb_exists. split.
  - intros (x & Hx & E). apply String.eqb_eq in E. subst. exact Hx.
  - intros Hx. exists label. split; [exact Hx | apply String.eqb_refl].
Qed.

(** One turn of the loop, by what the refresh invocation returned. *)

Lemma poll_past_deadline c fuel elapsed obs w :
  (Timeout c < elapsed)%Z ->
  poll c fuel elapsed obs w =
    (stop None (Some (TimeoutError (lastState obs) (Timeout c))) obs elapsed, w).
Proof.
  intros Hd. apply Z.ltb_lt in Hd.
  destruct fuel; simpl; rewrite Hd; reflexivity.
Qed.

Lemma poll_error c fuel elapsed obs w v label e w' :
  (elapsed <= Timeout c)%Z ->
  Refresh c w = ((v, label, Some e), w') ->
  poll c (S fuel) elapsed obs w =
    (if isErrDefault404 e && inSet absentSentinel (Target c)
     then stop v None (obs ++ [(label, Some e)]) elapsed
     else stop None (Some e) (obs ++ [(label, Some e)]) elapsed, w').
Proof.
  intros Hd Hr. apply Z.ltb_ge in Hd. simpl. rewrite Hd, Hr.
  destruct (isErrDefault404 e && inSet absentSentinel (Target c)); reflexivity.
Qed.

Lemma poll_target c fuel elapsed obs w v label w' :
  (elapsed <= Timeout c)%Z ->
  Refresh c w = ((v, label, None), w') ->
  inSet label (Target c) = true ->
  poll c (S fuel) elapsed obs w =
    (stop v None (obs ++ [(label, None)]) elapsed, w').
Proof.
  intros Hd Hr Ht. apply Z.ltb_ge in Hd. simpl. rewrite Hd, Hr, Ht. reflexivity.
Qed.

Lemma poll_pending c fuel elapsed obs w v label w' :
  (elapsed <= Timeout c)%Z ->
  Refresh c w = ((v, label, None), w') ->
  inSet label (Target c) = false ->
  inSet label (Pending c) = true ->
  poll c (S fuel) elapsed obs w =
    poll c fuel (elapsed + interval c) (obs ++ [(label, None)]) w'.
Proof.
  intros Hd Hr Ht Hp. apply Z.ltb_ge in Hd. simpl.
  rewrite Hd, Hr, Ht, Hp. reflexivity.
Qed.


Lemma poll_unexpected c fuel elapsed obs w v label w' :
  (elapsed <= Timeout c)%Z ->
  Refresh c w = ((v, label, None), w') ->
  inSet label (Target c) = false ->
  inSet label (Pending c) = false ->
  noPending c = false ->
  poll c (S fuel) elapsed obs w =
    (stop None (Some (UnexpectedStateError label (Target c)))
       (obs ++ [(label, None)]) elapsed, w').
Proof.
  intros Hd Hr Ht Hp Hn. apply Z.ltb_ge in Hd. simpl.
  rewrite Hd, Hr, Ht, Hp, Hn. reflexivity.
Qed.



(** Fuel is never what stops the poll: past [polls_before_deadline]
    invocations the deadline has passed. *)
Lemma poll_fuel_irrelevant c fuel extra elapsed obs w :
  (0 < interval c)%Z ->
  (Timeout c - elapsed < Z.of_nat fuel * interval c)%Z ->
  poll c (fuel + extra) elapsed obs w = poll c fuel elapsed obs w.
Proof.
  intros Hpos. revert elapsed obs w.
  induction fuel as [|fuel IH]; intros elapsed obs w Hf.
  - rewrite !poll_past_deadline by lia. reflexivity.
  - simpl. destruct (Z.ltb (Timeout c) elapsed); [reflexivity|].
    destruct (Refresh c w) as [[[v l] err] w'].
    destruct err as [e|]; [reflexivity|].
    destruct (inSet l (Target c)); [reflexivity|].
    destruct (inSet l (Pending c) || noPending c); [|reflexivity].
    apply IH. lia.
Qed.

Lemma WaitForState_fuel c extra w :
  (0 < interval c)%Z ->
  poll c (polls_before_deadline c + extra) (Delay c) [] w = WaitForState c w.
Proof.
  intros Hpos. unfold WaitForState. apply poll_fuel_irrelevant; [exact Hpos|].
  unfold polls_before_deadline. rewrite Nat2Z.inj_succ.
  destruct (Z_lt_le_dec (Timeout c - Delay c) 0) as [Hneg|Hnn].
  - assert (0 <= Z.of_nat (Z.to_nat ((Timeout c - Delay c) / interval c)))%Z by lia.
    nia.
  - rewrite Z2Nat.id by (apply Z.div_pos; lia).
    rewrite Z.mul_comm. apply Z.mul_succ_div_gt. exact Hpos.
Qed.
End PollerFacts.

(** ** The refresh functions of the NAT gateway resource *)

Section NatGatewayFacts.
Context {Server Config : Type}.
Context `{natgateways.Endpoint Server} `{Provider Config}.
Import natgateways resource.

Implicit Types (c : golangsdk.ServiceClient) (d : schema.ResourceData)
  (w : natgateways.World Server) (obs : list (string * option error)).

(** The delete refresh, request by request. *)
Lemma waitForNatGatewayDelete_eq c id w :
  waitForNatGatewayDelete c id w =
    let '(r, s1) := get c id (server w) in
    match r with
    | inr err =>
        (if isErrDefault404 err then (None, "DELETED", None)
         else (None, "ACTIVE", Some err),
         {| server := s1; calls := (calls w ++ [CallGet id])%list |})
    | inl n =>
        let '(e, s2) := delete c id s1 in
        (match e with
         | Some err => if isErrDefault404 err then (Some n, "DELETED", None)
                       else (Some n, "ACTIVE", Some err)
         | None => (Some n, "ACTIVE", None)
         end,
         {| server := s2;
            calls := ((calls w ++ [CallGet id]) ++ [CallDelete id])%list |})
    end.
Proof.
  unfold waitForNatGatewayDelete, natgateways.Get, natgateways.Delete,
    request, bind, ret.
  destruct (get c id (server w)) as [[n|err] s1]; simpl.
  - destruct (delete c id s1) as [[err|] s2]; simpl;
      [destruct (isErrDefault404 err)|]; reflexivity.
  - destruct (isErrDefault404 err); reflexivity.
Qed.

(** The create refresh, likewise. *)
Lemma waitForNatGatewayActive_eq c id w :
  waitForNatGatewayActive c id w =
    let '(r, s1) := get c id (server w) in
    (match r with
     | inr err => (None, "", Some err)
     | inl n => if String.eqb (Status n) "ACTIVE" then (Some n, "ACTIVE", None)
                else (Some n, "", None)
     end,
     {| server := s1; calls := (calls w ++ [CallGet id])%list |}).
Proof.
  unfold waitForNatGatewayActive, natgateways.Get, request, bind, ret.
  destruct (get c id (server w)) as [[n|err] s1]; simpl;
    [destruct (String.eqb (Status n) "ACTIVE")|]; reflexivity.
Qed.

(** C1: in delete-polling, an error of the not-found kind from Get, or
    from the Delete that follows a successful Get, makes the refresh
    return "DELETED" with no error, and the poll ends in success; any other
    error from Get or Delete is returned by the refresh as it is, and the
    poll ends with it.  The poll may be at its first invocation or at a
    later one. *)
Theorem delete_refresh_not_found_is_success c d w e fuel elapsed obs :
  deleteRefreshError c (schema.Id d) w = Some e ->
  (elapsed <= Timeout (deleteStateConf d c))%Z ->
  if isErrDefault404 e
  then exists v w',
      waitForNatGatewayDelete c (schema.Id d) w = ((v, "DELETED", None), w') /\
      poll (deleteStateConf d c) (S fuel) elapsed obs w =
        (stop v None (obs ++ [("DELETED", None)]) elapsed, w')
  else exists v w',
      waitForNatGatewayDelete c (schema.Id d) w = ((v, "ACTIVE", Some e), w') /\
      poll (deleteStateConf d c) (S fuel) elapsed obs w =
        (stop None (Some e) (obs ++ [("ACTIVE", Some e)]) elapsed, w').
Proof.
  intros He Hd. unfold deleteRefreshError in He.
  pose proof (waitForNatGatewayDelete_eq c (schema.Id d) w) as Hr.
  destruct (get c (schema.Id d) (server w)) as [[n|err] s1].
  - destruct (delete c (schema.Id d) s1) as [[err|] s2];
      simpl in He; [|discriminate].
    injection He as ->.
    destruct (isErrDefault404 e) eqn:E404; eexists _, _; (split; [exact Hr|]).
    + apply poll_target; [exact Hd | exact Hr | reflexivity].
    + erewrite poll_error by (try exact Hd; exact Hr).
      rewrite E404. reflexivity.
  - injection He as ->.
    destruct (isErrDefault404 e) eqn:E404; eexists _, _; (split; [exact Hr|]).
    + apply poll_target; [exact Hd | exact Hr | reflexivity].
    + erewrite poll_error by (try exact Hd; exact Hr).
      rewrite E404. reflexivity.
Qed.
(** C2: one invocation of the delete refresh sends Get, and sends Delete
    after it exactly when Get succeeded; after a not-found from Get no
    Delete is sent.  An invocation that reports "DELETED" is the last one
    of the poll, so that no request follows it. *)
Theorem delete_sent_iff_get_succeeded c d w fuel elapsed obs :
  (elapsed <= Timeout (deleteStateConf d c))%Z ->
  let id := schema.Id d in
  let got := fst (get c id (server w)) in
  let out := waitForNatGatewayDelete c id w in
  let sent := match got with
              | inl _ => [CallGet id; CallDelete id]
              | inr _ => [CallGet id]
              end in
  calls (snd out) = (calls w ++ sent)%list /\
  (In (CallDelete id) sent <-> exists n, got = inl n) /\
  (snd (fst (fst out)) = "DELETED" ->
   snd (poll (deleteStateConf d c) (S fuel) elapsed obs w) = snd out /\
   failure (fst (poll (deleteStateConf d c) (S fuel) elapsed obs w)) = None).
Proof.
  intros Hd id got out sent. subst got out sent.
  pose proof (waitForNatGatewayDelete_eq c id w) as Hr.
  destruct (get c id (server w)) as [[n|err] s1] eqn:Hg; cbn [fst].
  - destruct (delete c id s1) as [e s2] eqn:Hdel.
    split; [rewrite Hr; simpl; rewrite <- app_assoc; reflexivity|]. split.
    + split; [eauto | intros _; right; left; reflexivity].
    + intros Hl. rewrite Hr in Hl. cbn [fst snd] in Hl.
      destruct e as [err|]; [destruct (isErrDefault404 err)|];
        try discriminate Hl.
      erewrite poll_target; [|exact Hd|exact Hr|reflexivity].
      rewrite Hr. split; reflexivity.
  - split; [rewrite Hr; reflexivity|]. split.
    + split; [|intros [n Hn]; discriminate].
      intros [Hc|[]]. discriminate.
    + intros Hl. rewrite Hr in Hl. cbn [fst snd] in Hl.
      destruct (isErrDefault404 err); try discriminate Hl.
      erewrite poll_target; [|exact Hd|exact Hr|reflexivity].
      rewrite Hr. split; reflexivity.
Qed.

(** C5: in create-polling the refresh hands every error of Get on
    unchanged, the not-found kind included, and the poll ends with that
    error and no value. *)
Theorem create_refresh_propagates_error c d id w e fuel elapsed obs :
  fst (get c id (server w)) = inr e ->
  (elapsed <= Timeout (createStateConf d c id))%Z ->
  exists w',
    waitForNatGatewayActive c id w = ((None, "", Some e), w') /\
    poll (createStateConf d c id) (S fuel) elapsed obs w =
      (stop None (Some e) (obs ++ [("", Some e)]) elapsed, w').
Proof.
  intros Hg Hd.
  pose proof (waitForNatGatewayActive_eq c id w) as Hr.
  destruct (get c id (server w)) as [r s1]. simpl in Hg. subst r.
  eexists. split; [exact Hr|].
  erewrite poll_error by (try exact Hd; exact Hr).
  simpl. rewrite andb_false_r. reflexivity.
Qed.

(** C4, as the code has it: in the create-wait and the delete-wait
    configuration the target and the pending set are disjoint and the
    initial delay is 5 seconds; the deadline is the timeout of the
    resource data, 10 minutes unless the configuration sets another, so
    that it exceeds the delay exactly when that timeout exceeds 5 seconds,
    as the default does. *)
Theorem stateConf_disjoint_and_deadline c d id :
  let create := createStateConf d c id in
  let delete := deleteStateConf d c in
  let tc := default (10 * Minute)%Z (schema.Create (schema.timeouts d)) in
  let td := default (10 * Minute)%Z (schema.Delete (schema.timeouts d)) in
  Forall (fun l => inSet l (Pending create) = false) (Target create) /\
  Forall (fun l => inSet l (Pending delete) = false) (Target delete) /\
  Delay create = (5 * Second)%Z /\ Delay delete = (5 * Second)%Z /\
  Timeout create = tc /\ Timeout delete = td /\
  ((Delay create < Timeout create)%Z <-> (5 * Second < tc)%Z) /\
  ((Delay delete < Timeout delete)%Z <-> (5 * Second < td)%Z) /\
  (5 * Second < 10 * Minute)%Z.
Proof.
  intros create delete tc td. subst create delete tc td.
  assert (Hc : Timeout (createStateConf d c id)
               = default (10 * Minute)%Z (schema.Create (schema.timeouts d))).
  { simpl. unfold schema.Timeout. simpl.
    destruct (schema.Create (schema.timeouts d)); reflexivity. }
  assert (Hdl : Timeout (deleteStateConf d c)
                = default (10 * Minute)%Z (schema.Delete (schema.timeouts d))).
  { simpl. unfold schema.Timeout. simpl.
    destruct (schema.Delete (schema.timeouts d)); reflexivity. }
  rewrite Hc, Hdl. simpl Delay. simpl Target. simpl Pending.
  repeat split; try reflexivity; auto.
Qed.
Lemma omitempty_sent d key :
  Forall (fun kv : string * JSON =>
            schema.HasChange d (fst kv) = true /\
            snd kv = JString (schema.Get d (fst kv)))
    (omitempty key (if schema.HasChange d key then schema.Get d key else "")).
Proof.
  unfold omitempty. destruct (schema.HasChange d key) eqn:E.
  - destruct (String.eqb (schema.Get d key) ""); repeat constructor; auto.
  - simpl. constructor.
Qed.

(** C8: the update fills a field of the options (name, description,
    spec) with the value of the resource data exactly when that field is
    reported as changed and leaves it at its zero value otherwise; the PUT
    it issues carries a body in which every field present is a changed one
    with its new value, the unchanged ones being left out. *)
Theorem update_sends_changed_fields_only d (meta : Config) client w :
  vpcV2Client meta (GetRegion d meta) = inl client ->
  let opts := buildUpdateOpts d in
  let field key := if schema.HasChange d key then schema.Get d key else "" in
  let sent := (omitempty "name" (field "name") ++
               omitempty "description" (field "description") ++
               omitempty "spec" (field "spec"))%list in
  UpdateOpts.Name opts = field "name" /\
  UpdateOpts.Description opts = field "description" /\
  UpdateOpts.Spec opts = field "spec" /\
  ToNatGatewayUpdateMap opts = JObject [("nat_gateway", JObject sent)] /\
  Forall (fun kv : string * JSON =>
            schema.HasChange d (fst kv) = true /\
            snd kv = JString (schema.Get d (fst kv))) sent /\
  exists more,
    calls (snd (resourceVpcNatGatewayV2Update d meta w)) =
      (calls w ++ CallPut (schema.Id d) (ToNatGatewayUpdateMap opts) :: more)%list /\
    (more = [] \/ more = [CallGet (schema.Id d)]).
Proof.
  intros Hc opts field sent.
  assert (Hn : UpdateOpts.Name opts = field "name").
  { subst opts field. unfold buildUpdateOpts.
    destruct (schema.HasChange d "name"), (schema.HasChange d "description"),
      (schema.HasChange d "spec"); reflexivity. }
  assert (Hds : UpdateOpts.Description opts = field "description").
  { subst opts field. unfold buildUpdateOpts.
    destruct (schema.HasChange d "name"), (schema.HasChange d "description"),
      (schema.HasChange d "spec"); reflexivity. }
  assert (Hs : UpdateOpts.Spec opts = field "spec").
  { subst opts field. unfold buildUpdateOpts.
    destruct (schema.HasChange d "name"), (schema.HasChange d "description"),
      (schema.HasChange d "spec"); reflexivity. }
  repeat (split; [assumption|]).
  split; [unfold ToNatGatewayUpdateMap; rewrite Hn, Hds, Hs; reflexivity|].
  split.
  { subst sent field. repeat (apply Forall_app; split); apply omitempty_sent. }
  unfold resourceVpcNatGatewayV2Update. rewrite Hc.
  fold opts. unfold natgateways.Update, request, bind, ret.
  destruct (put client (schema.Id d) (ToNatGatewayUpdateMap opts) (server w))
    as [[n|err] s1]; cbn [snd calls].
  - unfold resourceVpcNatGatewayV2Read. rewrite Hc.
    unfold natgateways.Get, request, bind, ret. cbn [server calls].
    destruct (get client (schema.Id d) s1) as [[g|err] s2]; cbn [snd calls];
      exists [CallGet (schema.Id d)]; rewrite <- app_assoc; auto.
  - exists []. auto.
Qed.
End NatGatewayFacts.

(** ** The cloud-volume requests *)

Section VolumeFacts.
Context {Server : Type} `{golangsdk.Remote Server}.
Import golangsdk cloudvolumes.

Implicit Types (w : World Server) (client : loc) (c : ServiceClient).

(** Sending a request leaves the memory alone and logs the request. *)
Lemma Request_frame c m u b opts w :
  heap (snd (Request_ c m u b opts w)) = heap w /\
  requests (snd (Request_ c m u b opts w)) =
    (requests w ++ [{| method := m; url := u; body := b; via := c |}])%list.
Proof.
  unfold Request_.
  destruct (roundTrip _ (remote w)) as [[status payload|msg] srv]; simpl.
  - destruct (okCode _ status); [|destruct (Z.eqb status 404)]; simpl; auto.
  - auto.
Qed.

(** The local copy of [Create] and [ExtendSize] lives at a new address. *)
Lemma fresh_not_client client c w :
  heap w !! client = Some c -> fresh (dom (heap w)) <> client.
Proof.
  intros Hc Heq. pose proof (is_fresh (dom (heap w))) as Hf.
  rewrite Heq in Hf. apply Hf. apply elem_of_dom. eauto.
Qed.

Lemma fresh_unused w : heap w !! fresh (dom (heap w)) = None.
Proof. apply not_elem_of_dom. apply is_fresh. Qed.

(** What [Create] and [ExtendSize] share: the copy, its new base URL, and
    the POST sent through the copy. *)
Lemma post_through_copy client c w (u : ServiceClient -> string) b opts keep :
  heap w !! client = Some c ->
  let p := fresh (dom (heap w)) in
  let nc := set_ResourceBase c
              (strings_Replace1 (ResourceBaseURL c) "/v2/" "/v2.1/") in
  let w1 := {| heap := <[p := nc]> (<[p := c]> (heap w));
               remote := remote w; requests := requests w |} in
  deref client (fun c0 =>
    do newClient <- alloc c0;
    deref newClient (fun nc0 =>
    let baseURL := ResourceBaseURL nc0 in
    do _ <- store newClient
              (set_ResourceBase nc0 (strings_Replace1 baseURL "/v2/" "/v2.1/"));
    deref newClient (fun nc' =>
    do o <- Post newClient (u nc') b opts;
    ret (into keep o)))) w
  = (into keep (Returned (fst (Request_ nc POST (u nc) (Some b) opts w1))),
     snd (Request_ nc POST (u nc) (Some b) opts w1)).
Proof.
  intros Hc p nc w1.
  unfold deref, load, alloc, store, Post, call, load, bind, ret. rewrite Hc.
  cbn [heap]. fold p. rewrite lookup_insert_eq. rewrite lookup_insert_eq.
  fold nc. cbn [heap remote requests]. rewrite lookup_insert_eq. fold w1.
  destruct (Request_ nc POST (u nc) (Some b) opts w1) as [r w2]. reflexivity.
Qed.
Lemma copy_frame client c w nc w2 :
  heap w !! client = Some c ->
  heap w2 = <[fresh (dom (heap w)) := nc]>
              (<[fresh (dom (heap w)) := c]> (heap w)) ->
  heap w2 !! client = Some c /\ heap w ⊆ heap w2 /\
  heap w2 !! fresh (dom (heap w)) = Some nc.
Proof.
  intros Hc ->. rewrite insert_insert_eq.
  pose proof (fresh_not_client _ _ _ Hc) as Hne.
  split; [|split].
  - rewrite lookup_insert_ne by exact Hne. exact Hc.
  - apply insert_subseteq, fresh_unused.
  - apply lookup_insert_eq.
Qed.

(** C7: when the client's base URL holds "/v2/", [Create] and
    [ExtendSize] work on a copy of the client made for the call: the
    client the caller passed is the same afterwards, field by field, as is
    every other client in memory; the copy has the base URL with its
    leftmost "/v2/" turned into "/v2.1/", and the one request of the call
    is a POST sent through the copy, to the URL built from it. *)
Theorem Create_ExtendSize_use_a_copy client c w id co eo pre post :
  heap w !! client = Some c ->
  snd (ToVolumeCreateMap co) = None ->
  snd (ToVolumeExtendMap eo) = None ->
  ResourceBaseURL c = pre ++ "/v2/" ++ post ->
  strings_Index (ResourceBaseURL c) "/v2/" = Some (String.length pre) ->
  let copy := set_ResourceBase c (pre ++ "/v2.1/" ++ post) in
  let p := fresh (dom (heap w)) in
  let wc := snd (Create client co w) in
  let we := snd (ExtendSize client id eo w) in
  p <> client /\
  (heap wc !! client = Some c /\ heap w ⊆ heap wc /\
   heap wc !! p = Some copy /\
   requests wc =
     (requests w ++ [{| method := POST; url := createURL copy;
                        body := Some (fst (ToVolumeCreateMap co));
                        via := copy |}])%list) /\
  (heap we !! client = Some c /\ heap w ⊆ heap we /\
   heap we !! p = Some copy /\
   requests we =
     (requests w ++ [{| method := POST; url := actionURL copy id;
                        body := Some (fst (ToVolumeExtendMap eo));
                        via := copy |}])%list).
Proof.
  intros Hc Hco Heo Hbase Hidx copy p wc we.
  assert (Hcopy : set_ResourceBase c
                    (strings_Replace1 (ResourceBaseURL c) "/v2/" "/v2.1/") = copy).
  { subst copy. rewrite Hbase in Hidx |- *.
    rewrite strings_Replace1_at_Index by exact Hidx. reflexivity. }
  split; [apply (fresh_not_client _ _ _ Hc)|]. split.
  - subst wc. unfold Create.
    destruct (ToVolumeCreateMap co) as [b err]. simpl in Hco. subst err.
    pose proof (post_through_copy client c w createURL b None true Hc) as Hp.
    cbv zeta in Hp. rewrite Hp, Hcopy. cbn [snd fst].
    destruct (Request_frame copy POST (createURL copy) (Some b) None
                {| heap := <[fresh (dom (heap w)) := copy]>
                             (<[fresh (dom (heap w)) := c]> (heap w));
                   remote := remote w; requests := requests w |})
      as [Hh Hr].
    destruct (copy_frame client c w copy _ Hc Hh) as (H1 & H2 & H3).
    repeat split; assumption.
  - subst we. unfold ExtendSize.
    destruct (ToVolumeExtendMap eo) as [b err]. simpl in Heo. subst err.
    pose proof (post_through_copy client c w (fun nc => actionURL nc id) b
                  (Some {| OkCodes := [202%Z] |}) false Hc) as Hp.
    cbv beta zeta in Hp. rewrite Hp, Hcopy. cbn [snd fst].
    destruct (Request_frame copy POST (actionURL copy id) (Some b)
                (Some {| OkCodes := [202%Z] |})
                {| heap := <[fresh (dom (heap w)) := copy]>
                             (<[fresh (dom (heap w)) := c]> (heap w));
                   remote := remote w; requests := requests w |})
      as [Hh Hr].
    destruct (copy_frame client c w copy _ Hc Hh) as (H1 & H2 & H3).
    repeat split; assumption.
Qed.

(** C9: when the builder of the options fails, [Create], [ExtendSize],
    [Update] and [Delete] return a result that carries that very error and
    no body, and nothing is sent: memory, remote side and request log are
    as before. *)
Theorem builder_error_sends_nothing client c id w e co eo uo dq :
  snd (ToVolumeCreateMap co) = Some e ->
  snd (ToVolumeExtendMap eo) = Some e ->
  snd (ToVolumeUpdateMap uo) = Some e ->
  snd (ToVolumeDeleteQuery dq) = Some e ->
  heap w !! client = Some c ->
  Create client co w = (Returned {| Body := None; Err := Some e |}, w) /\
  ExtendSize client id eo w = (Returned {| Body := None; Err := Some e |}, w) /\
  Update client id uo w = (Returned {| Body := None; Err := Some e |}, w) /\
  Delete client id (Some dq) w = (Returned {| Body := None; Err := Some e |}, w).
Proof.
  intros Hco Heo Huo Hdq Hc.
  unfold Create, ExtendSize, Update, Delete.
  destruct (ToVolumeCreateMap co) as [b1 e1], (ToVolumeExtendMap eo) as [b2 e2],
    (ToVolumeUpdateMap uo) as [b3 e3], (ToVolumeDeleteQuery dq) as [q e4].
  simpl in Hco, Heo, Huo, Hdq. subst e1 e2 e3 e4.
  repeat split.
  unfold deref, load, bind, ret. rewrite Hc. reflexivity.
Qed.
(** [Update] sends one PUT with the body that the builder made. *)
Lemma Update_sends_PUT client c id uo w b :
  ToVolumeUpdateMap uo = (b, None) ->
  heap w !! client = Some c ->
  requests (snd (Update client id uo w)) =
    (requests w ++ [{| method := PUT; url := resourceURL c id;
                       body := Some b; via := c |}])%list.
Proof.
  intros Hb Hc. unfold Update. rewrite Hb.
  unfold deref, Put, call, load, bind, ret. rewrite Hc.
  cbv beta iota zeta. rewrite Hc.
  pose proof (Request_frame c PUT (resourceURL c id) (Some b)
                (Some {| OkCodes := [200%Z] |}) w) as [_ Hr].
  destruct (Request_ c PUT (resourceURL c id) (Some b)
              (Some {| OkCodes := [200%Z] |}) w) as [r w2].
  exact Hr.
Qed.

(** C6, as the code has it: when the query string can be built,
    [Delete] sends one DELETE request to the resource URL (followed by the
    query string when options are given) and takes status 200, and no
    other status, as success: any other answer, 202 included, leaves an
    error in the result.  The result has no body. *)
Theorem Delete_accepts_200_only client c id opts w status payload srv :
  heap w !! client = Some c ->
  match opts with
  | Some o => snd (ToVolumeDeleteQuery o) = None
  | None => True
  end ->
  let u := match opts with
           | Some o => resourceURL c id ++ fst (ToVolumeDeleteQuery o)
           | None => resourceURL c id
           end in
  let req := {| method := DELETE; url := u; body := None; via := c |} in
  roundTrip req (remote w) = (Answer status payload, srv) ->
  exists r,
    Delete client id opts w =
      (Returned r, {| heap := heap w; remote := srv;
                      requests := (requests w ++ [req])%list |}) /\
    Body r = None /\
    (Err r = None <-> status = 200%Z).
Proof.
  intros Hc Hq u req Hrt.
  assert (Hsend :
    (do o <- golangsdk.Delete client u (Some {| OkCodes := [200%Z] |});
     ret (into false o)) w =
    (Returned {| Body := None;
                 Err := if Z.eqb status 200 then None
                        else if Z.eqb status 404 then Some (ErrDefault404 u)
                        else Some (ErrUnexpectedResponseCode status) |},
     {| heap := heap w; remote := srv;
        requests := (requests w ++ [req])%list |})).
  { unfold golangsdk.Delete, call, load, bind, ret, Request_.
    rewrite Hc. fold req. rewrite Hrt. unfold okCode. simpl existsb.
    rewrite orb_false_r.
    destruct (Z.eqb status 200); [|destruct (Z.eqb status 404)]; reflexivity. }
  eexists. split; [|split].
  - unfold Delete, deref, load. unfold bind at 1. rewrite Hc.
    destruct opts as [o|].
    + destruct (ToVolumeDeleteQuery o) as [q err]. simpl in Hq. subst err.
      exact Hsend.
    + exact Hsend.
  - reflexivity.
  - simpl. destruct (Z.eqb status 200) eqn:E.
    + apply Z.eqb_eq in E. tauto.
    + apply Z.eqb_neq in E.
      destruct (Z.eqb status 404); split; intros; try discriminate; contradiction.
Qed.
End VolumeFacts.

(** ** What a whole run of the poll does to the world *)

Section PollerRuns.
Context {W V : Type}.
Import resource.

(** The poll changes the world through its refresh invocations only.  When
    every invocation after which the poll goes on is a [Step], and a [Step]
    before a [Last] is a [Last], the world at the end is a [Last] away from
    the world at the start. *)
Lemma poll_run (c : StateChangeConf W V) (Step Last : W -> W -> Prop) :
  (forall w, Last w w) ->
  (forall w, Last w (snd (Refresh c w))) ->
  (forall w v label w',
      Refresh c w = ((v, label, None), w') ->
      inSet label (Pending c) || noPending c = true -> Step w w') ->
  (forall w1 w2 w3, Step w1 w2 -> Last w2 w3 -> Last w1 w3) ->
  forall fuel elapsed obs w, Last w (snd (poll c fuel elapsed obs w)).
Proof.
  intros Hrefl Hlast Hstep Htrans.
  induction fuel as [|fuel IH]; intros elapsed obs w; simpl.
  - destruct (Z.ltb _ _); apply Hrefl.
  - destruct (Z.ltb (Timeout c) elapsed); [apply Hrefl|].
    pose proof (Hlast w) as Hl. pose proof (Hstep w) as Hs.
    destruct (Refresh c w) as [[[v label] err] w']. simpl in Hl.
    destruct err as [e|].
    { destruct (isErrDefault404 e && inSet absentSentinel (Target c)); exact Hl. }
    destruct (inSet label (Target c)); [exact Hl|].
    destruct (inSet label (Pending c) || noPending c) eqn:Hp; [|exact Hl].
    eapply Htrans; [eapply Hs; eauto | apply IH].
Qed.
End PollerRuns.

(** ** The resource functions as a whole *)

Section NatGatewayResourceFacts.
Context {Server Config : Type}.
Context `{natgateways.Endpoint Server} `{Provider Config}.
Import natgateways resource.

Implicit Types (c : golangsdk.ServiceClient) (d : schema.ResourceData)
  (w : natgateways.World Server) (obs : list (string * option error)).

(** When the VPC client cannot be built, each of the four resource functions
    returns the wrapped error at once: nothing is sent and the resource data
    is as it was. *)
Theorem no_client_no_request d (meta : Config) w err :
  vpcV2Client meta (GetRegion d meta) = inr err ->
  let failed := (d, Some (Wrapf "Error creating HuaweiCloud vpc client: %s" err)) in
  resourceVpcNatGatewayV2Create d meta w = (failed, w) /\
  resourceVpcNatGatewayV2Read d meta w = (failed, w) /\
  resourceVpcNatGatewayV2Update d meta w = (failed, w) /\
  resourceVpcNatGatewayV2Delete d meta w = (failed, w).
Proof.
  intros Hc failed.
  unfold resourceVpcNatGatewayV2Create, resourceVpcNatGatewayV2Read,
    resourceVpcNatGatewayV2Update, resourceVpcNatGatewayV2Delete.
  rewrite Hc. repeat split.
Qed.

Lemma Read_found d (meta : Config) client w n s1 :
  vpcV2Client meta (GetRegion d meta) = inl client ->
  get client (schema.Id d) (server w) = (inl n, s1) ->
  resourceVpcNatGatewayV2Read d meta w =
    ((schema.Set_ (setGateway d n) "region" (GetRegion (setGateway d n) meta),
      None),
     {| server := s1; calls := (calls w ++ [CallGet (schema.Id d)])%list |}).
Proof.
  intros Hc Hg. unfold resourceVpcNatGatewayV2Read. rewrite Hc.
  unfold natgateways.Get, request, bind, ret. rewrite Hg. reflexivity.
Qed.

(** Reading writes what the server said and reads it back: after a read
    that found the gateway, [d.Get] of name, description, spec, router_id,
    internal_network_id and tenant_id is the field of the gateway that Get
    returned, and [d.Get] of region is the region of the resource data so
    updated.  The read sent one Get, for the id of the resource data. *)
Theorem Read_sets_attributes d (meta : Config) client w n s1 :
  vpcV2Client meta (GetRegion d meta) = inl client ->
  get client (schema.Id d) (server w) = (inl n, s1) ->
  let d' := fst (fst (resourceVpcNatGatewayV2Read d meta w)) in
  snd (fst (resourceVpcNatGatewayV2Read d meta w)) = None /\
  schema.Get d' "name" = Name n /\
  schema.Get d' "description" = Description n /\
  schema.Get d' "spec" = Spec n /\
  schema.Get d' "router_id" = RouterID n /\
  schema.Get d' "internal_network_id" = InternalNetworkID n /\
  schema.Get d' "tenant_id" = TenantID n /\
  schema.Get d' "region" = GetRegion (setGateway d n) meta /\
  calls (snd (resourceVpcNatGatewayV2Read d meta w))
    = (calls w ++ [CallGet (schema.Id d)])%list.
Proof.
  intros Hc Hg d'. subst d'. rewrite (Read_found _ _ _ _ _ _ Hc Hg).
  cbn [fst snd calls]. unfold schema.Get, setGateway, schema.Set_.
  cbn [schema.attrs]. repeat split; by simplify_map_eq.
Qed.

(** A successful update ends with the state of the server: when the PUT is
    accepted and the Get that follows finds the gateway, the attributes of
    the resource data are those of the gateway that this Get returned,
    whatever was sent and whatever the PUT answered.  The update sent the PUT
    and the Get, in this order, and nothing else. *)
Theorem Update_then_Read d (meta : Config) client w g s1 n s2 :
  vpcV2Client meta (GetRegion d meta) = inl client ->
  put client (schema.Id d) (ToNatGatewayUpdateMap (buildUpdateOpts d)) (server w)
    = (inl g, s1) ->
  get client (schema.Id d) s1 = (inl n, s2) ->
  let d' := fst (fst (resourceVpcNatGatewayV2Update d meta w)) in
  snd (fst (resourceVpcNatGatewayV2Update d meta w)) = None /\
  schema.Get d' "name" = Name n /\
  schema.Get d' "description" = Description n /\
  schema.Get d' "spec" = Spec n /\
  snd (resourceVpcNatGatewayV2Update d meta w) =
    {| server := s2;
       calls := (calls w ++
                 [CallPut (schema.Id d) (ToNatGatewayUpdateMap (buildUpdateOpts d));
                  CallGet (schema.Id d)])%list |}.
Proof.
  intros Hc Hp Hg d'. subst d'.
  assert (Hu : resourceVpcNatGatewayV2Update d meta w =
    ((schema.Set_ (setGateway d n) "region" (GetRegion (setGateway d n) meta),
      None),
     {| server := s2;
        calls := ((calls w ++
                   [CallPut (schema.Id d)
                      (ToNatGatewayUpdateMap (buildUpdateOpts d))]) ++
                  [CallGet (schema.Id d)])%list |})).
  { unfold resourceVpcNatGatewayV2Update. rewrite Hc.
    unfold natgateways.Update, request, bind. rewrite Hp.
    apply (Read_found d meta client
             {| server := s1;
                calls := (calls w ++
                          [CallPut (schema.Id d)
                             (ToNatGatewayUpdateMap (buildUpdateOpts d))])%list |}
             n s2 Hc Hg). }
  rewrite Hu. cbn [fst snd]. rewrite <- app_assoc.
  unfold schema.Get, setGateway, schema.Set_. cbn [schema.attrs].
  repeat split; by simplify_map_eq.
Qed.

(** An update in which no field changed still sends its PUT, with an empty
    object for the gateway. *)
Theorem Update_without_changes d (meta : Config) client w :
  vpcV2Client meta (GetRegion d meta) = inl client ->
  schema.HasChange d "name" = false ->
  schema.HasChange d "description" = false ->
  schema.HasChange d "spec" = false ->
  buildUpdateOpts d = UpdateOpts.zero /\
  exists more,
    calls (snd (resourceVpcNatGatewayV2Update d meta w)) =
      (calls w ++
       CallPut (schema.Id d) (JObject [("nat_gateway", JObject [])]) :: more)%list.
Proof.
  intros Hc Hn Hd Hs.
  assert (Hz : buildUpdateOpts d = UpdateOpts.zero).
  { unfold buildUpdateOpts. rewrite Hn, Hd, Hs. reflexivity. }
  split; [exact Hz|].
  unfold resourceVpcNatGatewayV2Update. rewrite Hc, Hz.
  unfold natgateways.Update, request. unfold bind at 1.
  change (ToNatGatewayUpdateMap UpdateOpts.zero)
    with (JObject [("nat_gateway", JObject [])]).
  destruct (put client (schema.Id d) _ (server w)) as [[g|err] s1].
  - unfold resourceVpcNatGatewayV2Read. rewrite Hc.
    unfold natgateways.Get, request, bind, ret. cbn [server calls].
    destruct (get client (schema.Id d) s1) as [[n|e] s2]; cbn [snd calls];
      exists [CallGet (schema.Id d)]; rewrite <- app_assoc; reflexivity.
  - exists []. reflexivity.
Qed.

(** The create refresh reads and does nothing else: it sends one Get.  It
    reports "ACTIVE" exactly when that Get returned a gateway whose status
    is "ACTIVE", and then hands this gateway on without an error. *)
Theorem active_refresh_reports_ACTIVE c id w :
  let out := waitForNatGatewayActive c id w in
  (snd (fst (fst out)) = "ACTIVE" <->
     exists n, fst (get c id (server w)) = inl n /\ Status n = "ACTIVE" /\
               fst out = (Some n, "ACTIVE", None)) /\
  snd out = {| server := snd (get c id (server w));
               calls := (calls w ++ [CallGet id])%list |}.
Proof.
  intros out. subst out. rewrite waitForNatGatewayActive_eq.
  destruct (get c id (server w)) as [[n|err] s1]; cbn [fst snd].
  - destruct (String.eqb (Status n) "ACTIVE") eqn:E; cbn [fst snd].
    + apply String.eqb_eq in E. split; [|reflexivity].
      split; [intros _; exists n; auto | reflexivity].
    + apply String.eqb_neq in E. split; [|reflexivity].
      split; [discriminate|]. intros (n' & [= <-] & Hs & _). contradiction.
  - split; [|reflexivity]. split; [discriminate|].
    intros (n' & Hn & _). discriminate Hn.
Qed.

(** An error that the delete refresh returns is never of the not-found
    kind: it is the error that Get or Delete answered, of another kind, and
    it comes with the label "ACTIVE".  Not-found only shows as the label
    "DELETED". *)
Theorem delete_refresh_hides_not_found c id w e :
  snd (fst (waitForNatGatewayDelete c id w)) = Some e ->
  isErrDefault404 e = false /\
  snd (fst (fst (waitForNatGatewayDelete c id w))) = "ACTIVE" /\
  deleteRefreshError c id w = Some e.
Proof.
  rewrite waitForNatGatewayDelete_eq. unfold deleteRefreshError.
  destruct (get c id (server w)) as [[n|err] s1].
  - destruct (delete c id s1) as [[err|] s2]; cbn [fst snd];
      [destruct (isErrDefault404 err) eqn:E|]; cbn [fst snd];
      try discriminate.
    intros [= <-]. auto.
  - destruct (isErrDefault404 err) eqn:E; cbn [fst snd]; try discriminate.
    intros [= <-]. auto.
Qed.
(** The requests of a create wait are Gets for the gateway. *)
Lemma poll_create_gets c d id fuel elapsed obs w :
  exists k,
    calls (snd (poll (createStateConf d c id) fuel elapsed obs w))
      = (calls w ++ replicate k (CallGet id))%list.
Proof.
  apply (poll_run (createStateConf d c id)
           (fun w w' => exists k, calls w' = (calls w ++ replicate k (CallGet id))%list)
           (fun w w' => exists k, calls w' = (calls w ++ replicate k (CallGet id))%list)).
  - intros w0. exists 0%nat. simpl. rewrite app_nil_r. reflexivity.
  - intros w0. exists 1%nat. cbn [Refresh createStateConf].
    rewrite waitForNatGatewayActive_eq.
    destruct (get c id (server w0)) as [r s1]. reflexivity.
  - intros w0 v label w' Hr _. exists 1%nat.
    cbn [Refresh createStateConf] in Hr.
    rewrite waitForNatGatewayActive_eq in Hr.
    destruct (get c id (server w0)) as [r s1]. injection Hr as _ <-. reflexivity.
  - intros w1 w2 w3 [k1 H1] [k2 H2]. exists (k1 + k2)%nat.
    rewrite H2, H1, replicate_add, app_assoc. reflexivity.
Qed.

(** Creating a gateway sends the POST first, with options read from the
    resource data, and after it only Gets for the gateway that the POST
    returned: no PUT, no DELETE.  When the POST fails nothing follows it,
    the error is returned wrapped and the resource data is as it was. *)
Theorem Create_sends_post_then_gets d (meta : Config) client w :
  vpcV2Client meta (GetRegion d meta) = inl client ->
  exists gets,
    calls (snd (resourceVpcNatGatewayV2Create d meta w))
      = (calls w ++ CallPost (createOptsOf d) :: gets)%list /\
    match fst (post client (createOptsOf d) (server w)) with
    | inr err =>
        gets = [] /\
        fst (resourceVpcNatGatewayV2Create d meta w)
          = (d, Some (Wrapf "Error creatting Nat Gateway: %s" err))
    | inl n => exists k, gets = replicate k (CallGet (ID n))
    end.
Proof.
  intros Hc. unfold resourceVpcNatGatewayV2Create. rewrite Hc.
  fold (createOptsOf d). unfold natgateways.Create, request.
  unfold bind at 1. cbn [fst].
  destruct (post client (createOptsOf d) (server w)) as [[n|err] s1] eqn:Hp;
    cbn [fst].
  - set (w1 := {| server := s1;
                  calls := (calls w ++ [CallPost (createOptsOf d)])%list |}).
    unfold bind, WaitForState.
    destruct (poll_create_gets client d (ID n)
                (polls_before_deadline (createStateConf d client (ID n)))
                (Delay (createStateConf d client (ID n))) [] w1) as [k Hk].
    destruct (poll (createStateConf d client (ID n)) _ _ [] w1) as [rep w2].
    cbn [snd] in Hk. cbn [calls w1] in Hk. rewrite <- app_assoc in Hk.
    destruct (failure rep) as [e|].
    + exists (replicate k (CallGet (ID n))). split; [exact Hk | eauto].
    + unfold resourceVpcNatGatewayV2Read.
      destruct (vpcV2Client meta (GetRegion (schema.SetId d (ID n)) meta))
        as [client'|e].
      * unfold natgateways.Get, request, bind, ret. cbn [schema.Id schema.SetId].
        destruct (get client' (ID n) (server w2)) as [[g|e] s3]; cbn [snd calls];
          (exists (replicate (S k) (CallGet (ID n)));
           split; [|eauto]; rewrite Hk, <- app_assoc, replicate_S_end;
           reflexivity).
      * exists (replicate k (CallGet (ID n))). split; [exact Hk | eauto].
  - exists []. repeat split. unfold bind. rewrite Hp. reflexivity.
Qed.

(** A delete wait, from any state of its loop: the requests come in rounds
    of Get and Delete, with at most a lone Get at the end; every refresh
    invocation has sent one Get; and a wait that ends without error has seen
    "ACTIVE" at every invocation but the last, and "DELETED" at the last. *)
Lemma poll_delete_shape c d fuel elapsed obs w :
  exists k tail more,
    calls (snd (poll (deleteStateConf d c) fuel elapsed obs w))
      = (calls w ++ concat (replicate k (getThenDelete (schema.Id d))) ++ tail)%list /\
    (tail = [] \/ tail = [CallGet (schema.Id d)]) /\
    observed (fst (poll (deleteStateConf d c) fuel elapsed obs w))
      = (obs ++ more)%list /\
    length more = (k + length tail)%nat /\
    (failure (fst (poll (deleteStateConf d c) fuel elapsed obs w)) = None ->
     exists before,
       more = (before ++ [("DELETED", None)])%list /\
       Forall (eq ("ACTIVE", None)) before).
Proof.
  set (id := schema.Id d). set (conf := deleteStateConf d c).
  assert (Hstopped : forall obs0 t w0 (err : error),
    exists k tail more,
      calls w0 = (calls w0 ++ concat (replicate k (getThenDelete id)) ++ tail)%list /\
      (tail = [] \/ tail = [CallGet id]) /\
      obs0 = (obs0 ++ more)%list /\
      length more = (k + length tail)%nat /\
      (failure (stop (V := NatGateway) None (Some err) obs0 t) = None ->
       exists before,
         more = (before ++ [("DELETED", None)])%list /\
         Forall (eq ("ACTIVE", None)) before)).
  { intros obs0 t w0 err. exists 0%nat, [], []. simpl. rewrite !app_nil_r.
    repeat split; auto. discriminate. }
  revert elapsed obs w.
  induction fuel as [|fuel IH]; intros elapsed obs w.
  - simpl. destruct (Z.ltb _ _); apply Hstopped.
  - destruct (Z_lt_le_dec (Timeout conf) elapsed) as [Hlate|Hd].
    { rewrite poll_past_deadline by exact Hlate. apply Hstopped. }
    pose proof (waitForNatGatewayDelete_eq c id w) as Hr.
    destruct (get c id (server w)) as [[n|err] s1].
    + destruct (delete c id s1) as [[err|] s2].
      * destruct (isErrDefault404 err) eqn:E404.
        -- rewrite (poll_target conf fuel elapsed obs w _ _ _ Hd Hr eq_refl).
           exists 1%nat, [], [("DELETED", None)]. cbn [fst snd calls observed stop].
           simpl. rewrite <- app_assoc. repeat split; auto.
           intros _. exists []. split; [reflexivity | constructor].
        -- rewrite (poll_error conf fuel elapsed obs w _ _ _ _ Hd Hr), E404.
           exists 1%nat, [], [("ACTIVE", Some err)].
           cbn [fst snd calls observed stop andb failure].
           simpl. rewrite <- app_assoc. repeat split; auto. discriminate.
      * rewrite (poll_pending conf fuel elapsed obs w _ _ _ Hd Hr eq_refl eq_refl).
        destruct (IH (elapsed + interval conf)%Z (obs ++ [("ACTIVE", None)])%list
                    {| server := s2;
                       calls := ((calls w ++ [CallGet id]) ++ [CallDelete id])%list |})
          as (k & tail & more & Hc & Ht & Ho & Hl & Hs).
        exists (S k), tail, (("ACTIVE", None) :: more).
        split; [rewrite Hc; cbn [calls]; simpl; rewrite <- !app_assoc; reflexivity|].
        split; [exact Ht|].
        split; [rewrite Ho, <- app_assoc; reflexivity|].
        split; [simpl; rewrite Hl; reflexivity|].
        intros Hf. destruct (Hs Hf) as (before & -> & Hb).
        exists (("ACTIVE", None) :: before). split; [reflexivity|].
        constructor; [reflexivity | exact Hb].
    + destruct (isErrDefault404 err) eqn:E404.
      * rewrite (poll_target conf fuel elapsed obs w _ _ _ Hd Hr eq_refl).
        exists 0%nat, [CallGet id], [("DELETED", None)].
        cbn [fst snd calls observed stop]. simpl. repeat split; auto.
        intros _. exists []. split; [reflexivity | constructor].
      * rewrite (poll_error conf fuel elapsed obs w _ _ _ _ Hd Hr), E404.
        exists 0%nat, [CallGet id], [("ACTIVE", Some err)].
        cbn [fst snd calls observed stop andb failure].
        simpl. repeat split; auto. discriminate.
Qed.

(** Deleting a gateway is the delete wait and its verdict: the id of the
    resource data is cleared exactly when the wait returned no error, and
    after a failed wait the resource data is as it was and the error of the
    wait is returned wrapped.  The requests are rounds of Get and Delete for
    the id of the resource data, with at most a lone Get at the end, one Get
    for every refresh invocation of the wait; a wait without error has seen
    "ACTIVE" at every invocation but the last and "DELETED" at the last. *)
Theorem Delete_sends_rounds d (meta : Config) client w :
  vpcV2Client meta (GetRegion d meta) = inl client ->
  let run := WaitForState (deleteStateConf d client) w in
  resourceVpcNatGatewayV2Delete d meta w =
    (match failure (fst run) with
     | None => (schema.SetId d "", None)
     | Some err =>
         (d, Some (Wrapf "Error deleting HuaweiCloud Nat Gateway: %s" err))
     end, snd run) /\
  exists k tail,
    calls (snd run)
      = (calls w ++ concat (replicate k (getThenDelete (schema.Id d))) ++ tail)%list /\
    (tail = [] \/ tail = [CallGet (schema.Id d)]) /\
    length (observed (fst run)) = (k + length tail)%nat /\
    (failure (fst run) = None ->
     exists before,
       observed (fst run) = (before ++ [("DELETED", None)])%list /\
       Forall (eq ("ACTIVE", None)) before).
Proof.
  intros Hc run. split.
  - unfold resourceVpcNatGatewayV2Delete. rewrite Hc. unfold bind, ret.
    subst run. destruct (WaitForState (deleteStateConf d client) w) as [rep w2].
    cbn [fst snd]. destruct (failure rep); reflexivity.
  - subst run. unfold WaitForState.
    destruct (poll_delete_shape client d
                (polls_before_deadline (deleteStateConf d client))
                (Delay (deleteStateConf d client)) [] w)
      as (k & tail & more & Hk & Ht & Ho & Hl & Hs).
    exists k, tail. rewrite Ho. cbn [app].
    repeat split; auto.
Qed.

(** When the delete refresh tells the poller to wait, it has just asked for
    the deletion again: it reports "ACTIVE" without an error only after a
    Get that found the gateway and a Delete that the server accepted. *)
Theorem delete_refresh_waits_after_delete c id w v :
  fst (waitForNatGatewayDelete c id w) = (v, "ACTIVE", None) ->
  exists n s1 s2,
    get c id (server w) = (inl n, s1) /\
    delete c id s1 = (None, s2) /\
    v = Some n /\
    snd (waitForNatGatewayDelete c id w) =
      {| server := s2; calls := (calls w ++ getThenDelete id)%list |}.
Proof.
  rewrite waitForNatGatewayDelete_eq.
  destruct (get c id (server w)) as [[n|err] s1] eqn:Hg.
  - destruct (delete c id s1) as [[err|] s2] eqn:Hd; cbn [fst snd].
    + destruct (isErrDefault404 err); discriminate.
    + intros [= <-]. exists n, s1, s2. rewrite <- app_assoc.
      repeat split; auto.
  - cbn [fst snd]. destruct (isErrDefault404 err); discriminate.
Qed.
End NatGatewayResourceFacts.

(** ** More on the cloud-volume requests *)

Section VolumeRequestFacts.
Context {Server : Type} `{golangsdk.Remote Server}.
Import golangsdk cloudvolumes.

Implicit Types (w : World Server) (client : loc) (c : ServiceClient).

(** What a request leaves in the result, by the answer of the server. *)
Lemma Request_answer c m u b opts w status payload srv :
  roundTrip {| method := m; url := u; body := b; via := c |} (remote w)
    = (Answer status payload, srv) ->
  let codes := match opts with
               | Some o => OkCodes o
               | None => defaultOkCodes m
               end in
  Request_ c m u b opts w =
    (if okCode codes status then (Some payload, None)
     else if Z.eqb status 404 then (None, Some (ErrDefault404 u))
     else (None, Some (ErrUnexpectedResponseCode status)),
     {| heap := heap w; remote := srv;
        requests := (requests w ++
                     [{| method := m; url := u; body := b; via := c |}])%list |}).
Proof.
  intros Hrt codes. unfold Request_. rewrite Hrt. fold codes.
  destruct (okCode codes status); [|destruct (Z.eqb status 404)]; reflexivity.
Qed.

Lemma okCode_single code status : okCode [code] status = Z.eqb status code.
Proof. unfold okCode. simpl. apply orb_false_r. Qed.

(** [Update] and [Get] work through the client the caller passed, as it
    is: each sends one request to the resource URL built from that client,
    a PUT with the body of the builder or a GET without body, and memory is
    as before.  No copy is made and the base URL is not rewritten. *)
Theorem Update_Get_use_the_client_itself client c id uo w :
  heap w !! client = Some c ->
  snd (ToVolumeUpdateMap uo) = None ->
  (heap (snd (Update client id uo w)) = heap w /\
   requests (snd (Update client id uo w)) =
     (requests w ++ [{| method := PUT; url := resourceURL c id;
                        body := Some (fst (ToVolumeUpdateMap uo));
                        via := c |}])%list) /\
  (heap (snd (Get client id w)) = heap w /\
   requests (snd (Get client id w)) =
     (requests w ++ [{| method := GET; url := resourceURL c id;
                        body := None; via := c |}])%list).
Proof.
  intros Hc Hb. split.
  - unfold Update. destruct (ToVolumeUpdateMap uo) as [b err].
    simpl in Hb. subst err. cbn [fst].
    unfold deref, Put, call, load, bind, ret. rewrite Hc.
    cbv beta iota zeta. rewrite Hc.
    pose proof (Request_frame c PUT (resourceURL c id) (Some b)
                  (Some {| OkCodes := [200%Z] |}) w) as Hf.
    destruct (Request_ c PUT (resourceURL c id) (Some b)
                (Some {| OkCodes := [200%Z] |}) w) as [r w2].
    exact Hf.
  - unfold Get, deref, golangsdk.Get, call, load, bind, ret. rewrite Hc.
    cbv beta iota zeta. rewrite Hc.
    pose proof (Request_frame c GET (resourceURL c id) None None w) as Hf.
    destruct (Request_ c GET (resourceURL c id) None None w) as [r w2].
    exact Hf.
Qed.

(** [ExtendSize] takes status 202 and no other as success, and its result
    never has a body, whatever the server sent. *)
Theorem ExtendSize_accepts_202_only client c id eo w status payload srv :
  heap w !! client = Some c ->
  snd (ToVolumeExtendMap eo) = None ->
  let copy := set_ResourceBase c
                (strings_Replace1 (ResourceBaseURL c) "/v2/" "/v2.1/") in
  roundTrip {| method := POST; url := actionURL copy id;
               body := Some (fst (ToVolumeExtendMap eo)); via := copy |}
    (remote w) = (Answer status payload, srv) ->
  exists r,
    fst (ExtendSize client id eo w) = Returned r /\
    Body r = None /\
    (Err r = None <-> status = 202%Z).
Proof.
  intros Hc Hb copy Hrt. unfold ExtendSize.
  destruct (ToVolumeExtendMap eo) as [b err]. simpl in Hb. subst err.
  cbn [fst] in Hrt.
  pose proof (post_through_copy client c w (fun nc => actionURL nc id) b
                (Some {| OkCodes := [202%Z] |}) false Hc) as Hp.
  cbv beta zeta in Hp. fold copy in Hp. rewrite Hp. cbn [fst].
  erewrite Request_answer by (cbn [remote]; exact Hrt).
  cbn [OkCodes fst]. rewrite okCode_single.
  destruct (Z.eqb status 202) eqn:E.
  - apply Z.eqb_eq in E. eexists. split; [reflexivity|]. simpl. tauto.
  - apply Z.eqb_neq in E.
    destruct (Z.eqb status 404); eexists; (split; [reflexivity|]); simpl;
      (split; [reflexivity|]); split; intros; try discriminate; contradiction.
Qed.

(** [Update] takes status 200 and no other as success; the result holds
    the body of the answer exactly when the update succeeded. *)
Theorem Update_accepts_200_only client c id uo w status payload srv :
  heap w !! client = Some c ->
  snd (ToVolumeUpdateMap uo) = None ->
  roundTrip {| method := PUT; url := resourceURL c id;
               body := Some (fst (ToVolumeUpdateMap uo)); via := c |}
    (remote w) = (Answer status payload, srv) ->
  exists r,
    fst (Update client id uo w) = Returned r /\
    (Err r = None <-> status = 200%Z) /\
    Body r = (if Z.eqb status 200 then Some payload else None).
Proof.
  intros Hc Hb Hrt. unfold Update.
  destruct (ToVolumeUpdateMap uo) as [b err]. simpl in Hb. subst err.
  cbn [fst] in Hrt.
  unfold deref, Put, call, load, bind, ret. rewrite Hc.
  cbv beta iota zeta. rewrite Hc.
  erewrite Request_answer by exact Hrt.
  cbn [OkCodes fst]. rewrite okCode_single.
  destruct (Z.eqb status 200) eqn:E.
  - apply Z.eqb_eq in E. eexists. split; [reflexivity|]. simpl. tauto.
  - apply Z.eqb_neq in E.
    destruct (Z.eqb status 404); eexists; (split; [reflexivity|]); simpl;
      (split; [|reflexivity]); split; intros; try discriminate; contradiction.
Qed.
(** A base URL without "/v2/": [Create] and [ExtendSize] make their copy all
    the same.  The copy is the one cell added to memory; its [ResourceBase]
    is the base URL of the client, also when the client had none set and the
    base URL came from elsewhere; the POST goes through the copy. *)
Theorem Create_ExtendSize_without_v2 client c w id co eo :
  heap w !! client = Some c ->
  snd (ToVolumeCreateMap co) = None ->
  snd (ToVolumeExtendMap eo) = None ->
  strings_Index (ResourceBaseURL c) "/v2/" = None ->
  let copy := set_ResourceBase c (ResourceBaseURL c) in
  let p := fresh (dom (heap w)) in
  (heap (snd (Create client co w)) = <[p := copy]> (heap w) /\
   requests (snd (Create client co w)) =
     (requests w ++ [{| method := POST; url := createURL copy;
                        body := Some (fst (ToVolumeCreateMap co));
                        via := copy |}])%list) /\
  (heap (snd (ExtendSize client id eo w)) = <[p := copy]> (heap w) /\
   requests (snd (ExtendSize client id eo w)) =
     (requests w ++ [{| method := POST; url := actionURL copy id;
                        body := Some (fst (ToVolumeExtendMap eo));
                        via := copy |}])%list).
Proof.
  intros Hc Hco Heo Hidx copy p.
  assert (Hcopy : set_ResourceBase c
                    (strings_Replace1 (ResourceBaseURL c) "/v2/" "/v2.1/") = copy)
    by (subst copy; rewrite strings_Replace1_absent by exact Hidx; reflexivity).
  split.
  - unfold Create. destruct (ToVolumeCreateMap co) as [b err].
    simpl in Hco. subst err.
    pose proof (post_through_copy client c w createURL b None true Hc) as Hp.
    cbv zeta in Hp. rewrite Hp, Hcopy. cbn [snd fst].
    destruct (Request_frame copy POST (createURL copy) (Some b) None
                {| heap := <[fresh (dom (heap w)) := copy]>
                             (<[fresh (dom (heap w)) := c]> (heap w));
                   remote := remote w; requests := requests w |})
      as [Hh Hr].
    rewrite Hh, Hr. cbn [heap requests]. rewrite insert_insert_eq. auto.
  - unfold ExtendSize. destruct (ToVolumeExtendMap eo) as [b err].
    simpl in Heo. subst err.
    pose proof (post_through_copy client c w (fun nc => actionURL nc id) b
                  (Some {| OkCodes := [202%Z] |}) false Hc) as Hp.
    cbv beta zeta in Hp. rewrite Hp, Hcopy. cbn [snd fst].
    destruct (Request_frame copy POST (actionURL copy id) (Some b)
                (Some {| OkCodes := [202%Z] |})
                {| heap := <[fresh (dom (heap w)) := copy]>
                             (<[fresh (dom (heap w)) := c]> (heap w));
                   remote := remote w; requests := requests w |})
      as [Hh Hr].
    rewrite Hh, Hr. cbn [heap requests]. rewrite insert_insert_eq. auto.
Qed.

(** The builder is asked before the client is touched.  With a client
    pointer that is not valid, [Create], [ExtendSize] and [Update] still
    return the error of a failing builder, without a panic; with options
    that build, [Create] and [ExtendSize] panic at the copy of the client,
    before anything is sent. *)
Theorem builder_is_asked_before_the_client client id w e bco beo buo gco geo :
  heap w !! client = None ->
  snd (ToVolumeCreateMap bco) = Some e ->
  snd (ToVolumeExtendMap beo) = Some e ->
  snd (ToVolumeUpdateMap buo) = Some e ->
  snd (ToVolumeCreateMap gco) = None ->
  snd (ToVolumeExtendMap geo) = None ->
  Create client bco w = (Returned {| Body := None; Err := Some e |}, w) /\
  ExtendSize client id beo w = (Returned {| Body := None; Err := Some e |}, w) /\
  Update client id buo w = (Returned {| Body := None; Err := Some e |}, w) /\
  Create client gco w = (Panicked, w) /\
  ExtendSize client id geo w = (Panicked, w).
Proof.
  intros Hc Hb1 Hb2 Hb3 Hg1 Hg2. unfold Create, ExtendSize, Update.
  destruct (ToVolumeCreateMap bco) as [b1 e1], (ToVolumeExtendMap beo) as [b2 e2],
    (ToVolumeUpdateMap buo) as [b3 e3], (ToVolumeCreateMap gco) as [b4 e4],
    (ToVolumeExtendMap geo) as [b5 e5].
  simpl in Hb1, Hb2, Hb3, Hg1, Hg2. subst e1 e2 e3 e4 e5.
  repeat split; unfold deref, load, bind, ret; rewrite Hc; reflexivity.
Qed.
End VolumeRequestFacts.

(** ** The properties on the simulated remote sides *)

Import natgateways Sim.

(** A gateway that is already gone: the first poll of the delete wait
    succeeds.  A broken endpoint: the poll ends with the endpoint's error. *)
Lemma delete_refresh_not_found_is_success_witness :
  let d := Sim.data Sim.no_timeouts [] in
  (deleteRefreshError Sim.client "gw-1" (Sim.world Sim.empty)
     = Some (ErrDefault404 "gw-1") /\
   exists v w',
     waitForNatGatewayDelete Sim.client "gw-1" (Sim.world Sim.empty)
       = ((v, "DELETED", None), w') /\
     resource.poll (deleteStateConf d Sim.client) 1 (5 * Second)%Z []
       (Sim.world Sim.empty)
       = (resource.stop v None [("DELETED", None)] (5 * Second)%Z, w')) /\
  (deleteRefreshError Sim.client "gw-1" (Sim.world (Sim.down 500))
     = Some (ErrUnexpectedResponseCode 500) /\
   exists v w',
     waitForNatGatewayDelete Sim.client "gw-1" (Sim.world (Sim.down 500))
       = ((v, "ACTIVE", Some (ErrUnexpectedResponseCode 500)), w') /\
     resource.poll (deleteStateConf d Sim.client) 1 (5 * Second)%Z []
       (Sim.world (Sim.down 500))
       = (resource.stop None (Some (ErrUnexpectedResponseCode 500))
            [("ACTIVE", Some (ErrUnexpectedResponseCode 500))] (5 * Second)%Z, w')).
Proof.
  intros d. split; (split; [vm_compute; reflexivity|]).
  - apply (delete_refresh_not_found_is_success Sim.client d (Sim.world Sim.empty)
             (ErrDefault404 "gw-1") 0 (5 * Second)%Z []).
    + vm_compute. reflexivity.
    + vm_compute. discriminate.
  - apply (delete_refresh_not_found_is_success Sim.client d
             (Sim.world (Sim.down 500)) (ErrUnexpectedResponseCode 500)
             0 (5 * Second)%Z []).
    + vm_compute. reflexivity.
    + vm_compute. discriminate.
Defined.

(** A gateway that is gone: the delete refresh sends Get alone, reports
    "DELETED", and the poll stops there. *)
Lemma delete_sent_iff_get_succeeded_witness :
  let d := Sim.data Sim.no_timeouts [] in
  let w := Sim.world Sim.empty in
  (5 * Second <= resource.Timeout (deleteStateConf (Server := Sim.Server) d Sim.client))%Z /\
  calls (snd (waitForNatGatewayDelete Sim.client "gw-1" w)) = [CallGet "gw-1"] /\
  snd (resource.poll (deleteStateConf d Sim.client) 1 (5 * Second)%Z [] w)
    = snd (waitForNatGatewayDelete Sim.client "gw-1" w).
Proof.
  intros d w.
  assert (Hd : (5 * Second
                <= resource.Timeout (deleteStateConf (Server := Sim.Server) d Sim.client))%Z)
    by (vm_compute; discriminate).
  split; [exact Hd|].
  destruct (delete_sent_iff_get_succeeded Sim.client d w 0 (5 * Second)%Z [] Hd)
    as (Hcalls & _ & Hlast).
  split; [exact Hcalls|].
  apply Hlast. vm_compute. reflexivity.
Defined.



(** C4 as stated fails: a configuration whose [timeouts] block sets 5
    seconds for create and 1 second for delete gives waits whose deadline is
    not above the initial delay. *)
Lemma stateConf_deadline_not_above_delay :
  let d := Sim.data {| schema.Create := Some (5 * Second)%Z;
                       schema.Delete := Some Second |} [] in
  let create := createStateConf (Server := Sim.Server) d Sim.client "gw-1" in
  let delete := deleteStateConf (Server := Sim.Server) d Sim.client in
  ~ (resource.Delay create < resource.Timeout create)%Z /\
  ~ (resource.Delay delete < resource.Timeout delete)%Z.
Proof.
  intros d create delete. split; vm_compute; intros Hlt; discriminate Hlt.
Qed.

(** A gateway that does not exist: the create wait ends with not-found. *)
Lemma create_refresh_propagates_error_witness :
  let d := Sim.data Sim.no_timeouts [] in
  let w := Sim.world Sim.empty in
  fst (get Sim.client "gw-1" (server w)) = inr (ErrDefault404 "gw-1") /\
  exists w',
    waitForNatGatewayActive Sim.client "gw-1" w
      = ((None, "", Some (ErrDefault404 "gw-1")), w') /\
    resource.poll (createStateConf d Sim.client "gw-1") 1 (5 * Second)%Z [] w
      = (resource.stop None (Some (ErrDefault404 "gw-1"))
           [("", Some (ErrDefault404 "gw-1"))] (5 * Second)%Z, w').
Proof.
  intros d w. split; [vm_compute; reflexivity|].
  apply (create_refresh_propagates_error Sim.client d "gw-1" w
           (ErrDefault404 "gw-1") 0 (5 * Second)%Z []).
  - vm_compute. reflexivity.
  - vm_compute. discriminate.
Defined.

(** An update in which only the name changed: the body holds the name. *)
Lemma update_sends_changed_fields_only_witness :
  let d := Sim.data Sim.no_timeouts ["name"] in
  vpcV2Client tt (GetRegion d tt) = inl Sim.client /\
  ToNatGatewayUpdateMap (buildUpdateOpts d)
    = JObject [("nat_gateway", JObject [("name", JString "nat-2")])].
Proof.
  intros d.
  assert (Hc : vpcV2Client tt (GetRegion d tt) = inl Sim.client) by reflexivity.
  split; [exact Hc|].
  destruct (update_sends_changed_fields_only d tt Sim.client
              (Sim.world (Sim.with_gateway "ACTIVE" 0)) Hc)
    as (_ & _ & _ & Hbody & _).
  rewrite Hbody. vm_compute. reflexivity.
Defined.

(** C6 as stated fails: a server that answers 202 to the DELETE request
    leaves an error in the result of [Delete]. *)
Lemma Delete_rejects_202 :
  fst (cloudvolumes.Delete 1%positive "vol-1" None (Sim.memory [202%Z]))
    = golangsdk.Returned
        {| golangsdk.Body := None;
           golangsdk.Err := Some (ErrUnexpectedResponseCode 202) |} /\
  golangsdk.requests
    (snd (cloudvolumes.Delete 1%positive "vol-1" None (Sim.memory [202%Z])))
    = [{| golangsdk.method := golangsdk.DELETE;
          golangsdk.url := "https://evs.example.com/v2/project/cloudvolumes/vol-1";
          golangsdk.body := None;
          golangsdk.via := Sim.client |}].
Proof. split; vm_compute; reflexivity. Qed.

(** A server that answers 200: [Delete] succeeds. *)
Lemma Delete_accepts_200_only_witness :
  let w := Sim.memory [200%Z] in
  golangsdk.heap w !! 1%positive = Some Sim.client /\
  exists r,
    fst (cloudvolumes.Delete 1%positive "vol-1" None w) = golangsdk.Returned r /\
    golangsdk.Err r = None.
Proof.
  intros w.
  assert (Hc : golangsdk.heap w !! 1%positive = Some Sim.client)
    by (vm_compute; reflexivity).
  split; [exact Hc|].
  assert (Hrt : golangsdk.roundTrip
                  {| golangsdk.method := golangsdk.DELETE;
                     golangsdk.url := golangsdk.resourceURL Sim.client "vol-1";
                     golangsdk.body := None;
                     golangsdk.via := Sim.client |} (golangsdk.remote w)
                = (golangsdk.Answer 200 JNull, [])) by reflexivity.
  destruct (Delete_accepts_200_only 1%positive Sim.client "vol-1" None w
              200%Z JNull [] Hc I Hrt) as (r & Hr & _ & Herr).
  exists r. split.
  - rewrite Hr. reflexivity.
  - apply Herr. reflexivity.
Defined.

(** A client on a v2 endpoint: after [Create] and [ExtendSize] it is as it
    was, and the requests went to the v2.1 endpoint. *)
Lemma Create_ExtendSize_use_a_copy_witness :
  let w := Sim.memory [200%Z] in
  let co := {| cloudvolumes.ToVolumeCreateMap := Sim.good JNull |} in
  let eo := {| cloudvolumes.ToVolumeExtendMap := Sim.good JNull |} in
  let copy := golangsdk.set_ResourceBase Sim.client
                "https://evs.example.com/v2.1/project/" in
  golangsdk.ResourceBaseURL Sim.client
    = "https://evs.example.com" ++ "/v2/" ++ "project/" /\
  strings_Index (golangsdk.ResourceBaseURL Sim.client) "/v2/" = Some 23%nat /\
  golangsdk.heap (snd (cloudvolumes.Create 1%positive co w)) !! 1%positive
    = Some Sim.client /\
  golangsdk.requests (snd (cloudvolumes.Create 1%positive co w))
    = [{| golangsdk.method := golangsdk.POST;
          golangsdk.url := "https://evs.example.com/v2.1/project/cloudvolumes";
          golangsdk.body := Some JNull;
          golangsdk.via := copy |}] /\
  golangsdk.heap (snd (cloudvolumes.ExtendSize 1%positive "vol-1" eo w)) !! 1%positive
    = Some Sim.client /\
  golangsdk.requests (snd (cloudvolumes.ExtendSize 1%positive "vol-1" eo w))
    = [{| golangsdk.method := golangsdk.POST;
          golangsdk.url :=
            "https://evs.example.com/v2.1/project/cloudvolumes/vol-1/action";
          golangsdk.body := Some JNull;
          golangsdk.via := copy |}].
Proof.
  intros w co eo copy.
  assert (Hc : golangsdk.heap w !! 1%positive = Some Sim.client)
    by (vm_compute; reflexivity).
  assert (Hb : golangsdk.ResourceBaseURL Sim.client
               = "https://evs.example.com" ++ "/v2/" ++ "project/")
    by reflexivity.
  assert (Hi : strings_Index (golangsdk.ResourceBaseURL Sim.client) "/v2/"
               = Some (String.length "https://evs.example.com"))
    by (vm_compute; reflexivity).
  assert (Hco : snd (cloudvolumes.ToVolumeCreateMap co) = None) by reflexivity.
  assert (Heo : snd (cloudvolumes.ToVolumeExtendMap eo) = None) by reflexivity.
  destruct (Create_ExtendSize_use_a_copy 1%positive Sim.client w "vol-1" co eo
              "https://evs.example.com" "project/" Hc Hco Heo Hb Hi)
    as (_ & (Hc1 & _ & _ & Hc2) & (He1 & _ & _ & He2)).
  repeat split; try assumption.
Defined.

(** Options that cannot be built: nothing is sent. *)
Lemma builder_error_sends_nothing_witness :
  let w := Sim.memory [200%Z] in
  let e := ErrBuilder "missing input" in
  let r := golangsdk.Returned {| golangsdk.Body := None; golangsdk.Err := Some e |} in
  cloudvolumes.Create 1%positive
    {| cloudvolumes.ToVolumeCreateMap := Sim.bad JNull |} w = (r, w) /\
  cloudvolumes.ExtendSize 1%positive "vol-1"
    {| cloudvolumes.ToVolumeExtendMap := Sim.bad JNull |} w = (r, w) /\
  cloudvolumes.Update 1%positive "vol-1"
    {| cloudvolumes.ToVolumeUpdateMap := Sim.bad JNull |} w = (r, w) /\
  cloudvolumes.Delete 1%positive "vol-1"
    (Some {| cloudvolumes.ToVolumeDeleteQuery := Sim.bad "" |}) w = (r, w).
Proof.
  intros w e r.
  apply (builder_error_sends_nothing 1%positive Sim.client "vol-1" w e);
    try reflexivity.
Defined.

(** ** Runs of the delete wait

    The wait of [resourceVpcNatGatewayV2Delete] on three endpoints: a gateway
    that is gone before the first poll; a gateway that is deleted by the
    first poll and gone at the second; an endpoint that drops two delete
    requests before it obeys the third. *)

Example delete_wait_already_gone :
  run_delete Sim.empty
  = (None, [("DELETED", None)], (5 * Second)%Z, [CallGet "gw-1"]).
Proof. vm_compute. reflexivity. Qed.

Example delete_wait_gone_at_second_poll :
  run_delete (Sim.with_gateway "ACTIVE" 0)
  = (None, [("ACTIVE", None); ("DELETED", None)], (8 * Second)%Z,
     [CallGet "gw-1"; CallDelete "gw-1"; CallGet "gw-1"]).
Proof. vm_compute. reflexivity. Qed.

Example delete_wait_retries_dropped_deletes :
  run_delete (Sim.with_gateway "ACTIVE" 2)
  = (None,
     [("ACTIVE", None); ("ACTIVE", None); ("ACTIVE", None); ("DELETED", None)],
     (14 * Second)%Z,
     [CallGet "gw-1"; CallDelete "gw-1"; CallGet "gw-1"; CallDelete "gw-1";
      CallGet "gw-1"; CallDelete "gw-1"; CallGet "gw-1"]).
Proof. vm_compute. reflexivity. Qed.

(** The delete refresh does not look at the status of the gateway: one in
    status "ERROR" is reported as "ACTIVE" like any other that is still
    there, and the wait goes on until it is gone. *)
Example delete_wait_ignores_status :
  run_delete (Sim.with_gateway "ERROR" 1)
  = (None, [("ACTIVE", None); ("ACTIVE", None); ("DELETED", None)],
     (11 * Second)%Z,
     [CallGet "gw-1"; CallDelete "gw-1"; CallGet "gw-1"; CallDelete "gw-1";
      CallGet "gw-1"]).
Proof. vm_compute. reflexivity. Qed.

(** ** The further properties on the simulated sides *)

Import SimMore.

(** A provider without endpoint: deleting sends nothing. *)
Lemma no_client_no_request_witness :
  let d := Sim.data Sim.no_timeouts [] in
  let w := Sim.world (Sim.with_gateway "ACTIVE" 0) in
  vpcV2Client false (GetRegion d false) = inr (ErrTransport "no endpoint") /\
  resourceVpcNatGatewayV2Delete d false w
    = ((d, Some (Wrapf "Error creating HuaweiCloud vpc client: %s"
                   (ErrTransport "no endpoint"))), w).
Proof.
  intros d w.
  assert (Hc : vpcV2Client false (GetRegion d false)
               = inr (ErrTransport "no endpoint")) by reflexivity.
  split; [exact Hc|].
  apply (no_client_no_request d false w (ErrTransport "no endpoint") Hc).
Defined.

(** Reading a gateway named "nat" into resource data that held "nat-2". *)
Lemma Read_sets_attributes_witness :
  let d := Sim.data Sim.no_timeouts [] in
  let w := Sim.world (Sim.with_gateway "ACTIVE" 0) in
  schema.Get d "name" = "nat-2" /\
  schema.Get (fst (fst (resourceVpcNatGatewayV2Read d tt w))) "name" = "nat" /\
  schema.Get (fst (fst (resourceVpcNatGatewayV2Read d tt w))) "router_id" = "r".
Proof.
  intros d w.
  assert (Hc : vpcV2Client tt (GetRegion d tt) = inl Sim.client) by reflexivity.
  assert (Hg : get Sim.client (schema.Id d) (server w)
               = (inl (Sim.gw "gw-1" "ACTIVE"), Sim.with_gateway "ACTIVE" 0))
    by (vm_compute; reflexivity).
  destruct (Read_sets_attributes d tt Sim.client w _ _ Hc Hg)
    as (_ & Hn & _ & _ & Hr & _).
  split; [vm_compute; reflexivity|]. split; [exact Hn | exact Hr].
Defined.

(** Renaming a gateway on a server that keeps its own name. *)
Lemma Update_then_Read_witness :
  let d := Sim.data Sim.no_timeouts ["name"] in
  let w := Sim.world (Sim.with_gateway "ACTIVE" 0) in
  schema.Get d "name" = "nat-2" /\
  schema.Get (fst (fst (resourceVpcNatGatewayV2Update d tt w))) "name" = "nat".
Proof.
  intros d w.
  assert (Hc : vpcV2Client tt (GetRegion d tt) = inl Sim.client) by reflexivity.
  assert (Hp : put Sim.client (schema.Id d)
                 (ToNatGatewayUpdateMap (buildUpdateOpts d)) (server w)
               = (inl (Sim.gw "gw-1" "ACTIVE"), Sim.with_gateway "ACTIVE" 0))
    by (vm_compute; reflexivity).
  assert (Hg : get Sim.client (schema.Id d) (Sim.with_gateway "ACTIVE" 0)
               = (inl (Sim.gw "gw-1" "ACTIVE"), Sim.with_gateway "ACTIVE" 0))
    by (vm_compute; reflexivity).
  destruct (Update_then_Read d tt Sim.client w _ _ _ _ Hc Hp Hg)
    as (_ & Hn & _).
  split; [vm_compute; reflexivity | exact Hn].
Defined.

Lemma Update_without_changes_witness :
  let d := Sim.data Sim.no_timeouts [] in
  buildUpdateOpts d = UpdateOpts.zero.
Proof.
  intros d.
  assert (Hc : vpcV2Client tt (GetRegion d tt) = inl Sim.client) by reflexivity.
  apply (Update_without_changes d tt Sim.client
           (Sim.world (Sim.with_gateway "ACTIVE" 0)) Hc);
    vm_compute; reflexivity.
Defined.

Lemma Create_sends_post_then_gets_witness :
  let d := Sim.data Sim.no_timeouts [] in
  let w := Sim.world Sim.empty in
  exists gets,
    calls (snd (resourceVpcNatGatewayV2Create d tt w))
      = CallPost (createOptsOf d) :: gets.
Proof.
  intros d w.
  assert (Hc : vpcV2Client tt (GetRegion d tt) = inl Sim.client) by reflexivity.
  destruct (Create_sends_post_then_gets d tt Sim.client w Hc) as (gets & Hg & _).
  exists gets. exact Hg.
Defined.

Lemma Delete_sends_rounds_witness :
  let d := Sim.data Sim.no_timeouts [] in
  let w := Sim.world (Sim.with_gateway "ACTIVE" 2) in
  fst (resourceVpcNatGatewayV2Delete d tt w) = (schema.SetId d "", None) /\
  exists k tail,
    calls (snd (resourceVpcNatGatewayV2Delete d tt w))
      = (concat (replicate k (getThenDelete "gw-1")) ++ tail)%list /\
    (tail = [] \/ tail = [CallGet "gw-1"]).
Proof.
  intros d w.
  assert (Hc : vpcV2Client tt (GetRegion d tt) = inl Sim.client) by reflexivity.
  destruct (Delete_sends_rounds d tt Sim.client w Hc)
    as (Hrun & k & tail & Hk & Ht & _).
  rewrite Hrun. cbn [fst snd]. split.
  - vm_compute. reflexivity.
  - exists k, tail. split; [exact Hk | exact Ht].
Defined.

(** A broken endpoint: the refresh returns its error, not a not-found. *)
Lemma delete_refresh_hides_not_found_witness :
  let w := Sim.world (Sim.down 500) in
  snd (fst (waitForNatGatewayDelete Sim.client "gw-1" w))
    = Some (ErrUnexpectedResponseCode 500) /\
  snd (fst (fst (waitForNatGatewayDelete Sim.client "gw-1" w))) = "ACTIVE".
Proof.
  intros w.
  assert (He : snd (fst (waitForNatGatewayDelete Sim.client "gw-1" w))
               = Some (ErrUnexpectedResponseCode 500)) by (vm_compute; reflexivity).
  split; [exact He|].
  apply (delete_refresh_hides_not_found Sim.client "gw-1" w _ He).
Defined.

(** An endpoint that drops the delete request: the refresh sent it. *)
Lemma delete_refresh_waits_after_delete_witness :
  let w := Sim.world (Sim.with_gateway "ACTIVE" 1) in
  fst (waitForNatGatewayDelete Sim.client "gw-1" w)
    = (Some (Sim.gw "gw-1" "ACTIVE"), "ACTIVE", None) /\
  calls (snd (waitForNatGatewayDelete Sim.client "gw-1" w))
    = getThenDelete "gw-1".
Proof.
  intros w.
  assert (Hf : fst (waitForNatGatewayDelete Sim.client "gw-1" w)
               = (Some (Sim.gw "gw-1" "ACTIVE"), "ACTIVE", None))
    by (vm_compute; reflexivity).
  split; [exact Hf|].
  destruct (delete_refresh_waits_after_delete Sim.client "gw-1" w _ Hf)
    as (n & s1 & s2 & _ & _ & _ & Hw).
  rewrite Hw. reflexivity.
Defined.

(** [Get] on a v2 client goes to the v2 endpoint, through the client. *)
Lemma Update_Get_use_the_client_itself_witness :
  let w := Sim.memory [200%Z] in
  golangsdk.requests (snd (cloudvolumes.Get 1%positive "vol-1" w))
    = [{| golangsdk.method := golangsdk.GET;
          golangsdk.url := "https://evs.example.com/v2/project/cloudvolumes/vol-1";
          golangsdk.body := None;
          golangsdk.via := Sim.client |}] /\
  golangsdk.heap (snd (cloudvolumes.Get 1%positive "vol-1" w)) = golangsdk.heap w.
Proof.
  intros w.
  assert (Hc : golangsdk.heap w !! 1%positive = Some Sim.client)
    by (vm_compute; reflexivity).
  assert (Hb : snd (cloudvolumes.ToVolumeUpdateMap
                      {| cloudvolumes.ToVolumeUpdateMap := Sim.good JNull |}) = None)
    by reflexivity.
  destruct (Update_Get_use_the_client_itself 1%positive Sim.client "vol-1" _ w Hc Hb)
    as (_ & Hh & Hr).
  split; [exact Hr | exact Hh].
Defined.

(** A server that answers 202 to the extension. *)
Lemma ExtendSize_accepts_202_only_witness :
  let w := Sim.memory [202%Z] in
  let eo := {| cloudvolumes.ToVolumeExtendMap := Sim.good JNull |} in
  exists r,
    fst (cloudvolumes.ExtendSize 1%positive "vol-1" eo w) = golangsdk.Returned r /\
    golangsdk.Body r = None /\ golangsdk.Err r = None.
Proof.
  intros w eo.
  assert (Hc : golangsdk.heap w !! 1%positive = Some Sim.client)
    by (vm_compute; reflexivity).
  assert (Hb : snd (cloudvolumes.ToVolumeExtendMap eo) = None) by reflexivity.
  assert (Hrt :
    golangsdk.roundTrip
      {| golangsdk.method := golangsdk.POST;
         golangsdk.url :=
           golangsdk.actionURL
             (golangsdk.set_ResourceBase Sim.client
                (strings_Replace1 (golangsdk.ResourceBaseURL Sim.client)
                   "/v2/" "/v2.1/")) "vol-1";
         golangsdk.body := Some (fst (cloudvolumes.ToVolumeExtendMap eo));
         golangsdk.via :=
           golangsdk.set_ResourceBase Sim.client
             (strings_Replace1 (golangsdk.ResourceBaseURL Sim.client)
                "/v2/" "/v2.1/") |}
      (golangsdk.remote w)
    = (golangsdk.Answer 202 JNull, [])) by reflexivity.
  destruct (ExtendSize_accepts_202_only 1%positive Sim.client "vol-1" eo w
              202%Z JNull [] Hc Hb Hrt) as (r & Hr & Hbody & Herr).
  exists r. split; [exact Hr|]. split; [exact Hbody|]. apply Herr. reflexivity.
Defined.

(** A server that answers 200 to the update. *)
Lemma Update_accepts_200_only_witness :
  let w := Sim.memory [200%Z] in
  let uo := {| cloudvolumes.ToVolumeUpdateMap := Sim.good JNull |} in
  exists r,
    fst (cloudvolumes.Update 1%positive "vol-1" uo w) = golangsdk.Returned r /\
    golangsdk.Err r = None /\ golangsdk.Body r = Some JNull.
Proof.
  intros w uo.
  assert (Hc : golangsdk.heap w !! 1%positive = Some Sim.client)
    by (vm_compute; reflexivity).
  assert (Hb : snd (cloudvolumes.ToVolumeUpdateMap uo) = None) by reflexivity.
  assert (Hrt :
    golangsdk.roundTrip
      {| golangsdk.method := golangsdk.PUT;
         golangsdk.url := golangsdk.resourceURL Sim.client "vol-1";
         golangsdk.body := Some (fst (cloudvolumes.ToVolumeUpdateMap uo));
         golangsdk.via := Sim.client |}
      (golangsdk.remote w)
    = (golangsdk.Answer 200 JNull, [])) by reflexivity.
  destruct (Update_accepts_200_only 1%positive Sim.client "vol-1" uo w
              200%Z JNull [] Hc Hb Hrt) as (r & Hr & Herr & Hbody).
  exists r. split; [exact Hr|]. split; [apply Herr; reflexivity | exact Hbody].
Defined.

(** A client of a v3 endpoint: the copy keeps the endpoint as its base. *)
Lemma Create_ExtendSize_without_v2_witness :
  let w := SimMore.memory_v3 [200%Z] in
  let co := {| cloudvolumes.ToVolumeCreateMap := Sim.good JNull |} in
  golangsdk.requests (snd (cloudvolumes.Create 1%positive co w))
    = [{| golangsdk.method := golangsdk.POST;
          golangsdk.url := "https://evs.example.com/v3/project/cloudvolumes";
          golangsdk.body := Some JNull;
          golangsdk.via :=
            golangsdk.set_ResourceBase SimMore.client_v3
              "https://evs.example.com/v3/project/" |}].
Proof.
  intros w co.
  assert (Hc : golangsdk.heap w !! 1%positive = Some SimMore.client_v3)
    by (vm_compute; reflexivity).
  assert (Hco : snd (cloudvolumes.ToVolumeCreateMap co) = None) by reflexivity.
  assert (Heo : snd (cloudvolumes.ToVolumeExtendMap
                       {| cloudvolumes.ToVolumeExtendMap := Sim.good JNull |}) = None)
    by reflexivity.
  assert (Hi : strings_Index (golangsdk.ResourceBaseURL SimMore.client_v3) "/v2/"
               = None) by (vm_compute; reflexivity).
  destruct (Create_ExtendSize_without_v2 1%positive SimMore.client_v3 w "vol-1"
              co _ Hc Hco Heo Hi) as ((_ & Hr) & _).
  exact Hr.
Defined.

(** An address that holds no client. *)
Lemma builder_is_asked_before_the_client_witness :
  let w := Sim.memory [200%Z] in
  cloudvolumes.Create 9%positive
    {| cloudvolumes.ToVolumeCreateMap := Sim.bad JNull |} w
    = (golangsdk.Returned
         {| golangsdk.Body := None;
            golangsdk.Err := Some (ErrBuilder "missing input") |}, w) /\
  cloudvolumes.Create 9%positive
    {| cloudvolumes.ToVolumeCreateMap := Sim.good JNull |} w
    = (golangsdk.Panicked, w).
Proof.
  intros w.
  assert (Hc : golangsdk.heap w !! 9%positive = None) by (vm_compute; reflexivity).
  destruct (builder_is_asked_before_the_client 9%positive "vol-1" w
              (ErrBuilder "missing input")
              {| cloudvolumes.ToVolumeCreateMap := Sim.bad JNull |}
              {| cloudvolumes.ToVolumeExtendMap := Sim.bad JNull |}
              {| cloudvolumes.ToVolumeUpdateMap := Sim.bad JNull |}
              {| cloudvolumes.ToVolumeCreateMap := Sim.good JNull |}
              {| cloudvolumes.ToVolumeExtendMap := Sim.good JNull |}
              Hc eq_refl eq_refl eq_refl eq_refl eq_refl)
    as (H1 & _ & _ & H4 & _).
  split; [exact H1 | exact H4].
Defined.
